(** * react-native-countdown: time remaining, its three renderings and the hook

    A shallow embedding of [src/utils/countdownUtils] (calculateTimeRemaining,
    formatCountdown, formatCountdownShort, formatCountdownCompact) and of the
    state kept by [src/presentation/hooks/useCountdown], followed by the
    properties the specification states about them.

    Numbers.  Every number the code handles is either an integer (epoch
    milliseconds and what is computed from them) or the not-a-number value
    an invalid date yields, so a JavaScript number is [Num z] or [NaN].
    Integer arithmetic is exact below 2^53, which covers every difference of
    two time values (at most 8.64e15 in magnitude) taken at or after the
    epoch. *)

From Stdlib Require Import ZArith List Bool Ascii String Lia.
From Stdlib Require Import Decimal DecimalString.
From Stdlib Require DecimalPos DecimalZ.
Import ListNotations.

#[local] Open Scope string_scope.
#[local] Open Scope Z_scope.

(** ** JavaScript numbers *)

Inductive number : Type :=
| Num (z : Z)
| NaN.

Module JS.

(** [a - b] *)
Definition sub (a b : number) : number :=
  match a, b with
  | Num x, Num y => Num (x - y)
  | _, _ => NaN
  end.

(** [a + b] *)
Definition add (a b : number) : number :=
  match a, b with
  | Num x, Num y => Num (x + y)
  | _, _ => NaN
  end.

(** [a * b] *)
Definition mul (a b : number) : number :=
  match a, b with
  | Num x, Num y => Num (x * y)
  | _, _ => NaN
  end.

(** [Math.max(a, b)]: not-a-number as soon as one argument is. *)
Definition max (a b : number) : number :=
  match a, b with
  | Num x, Num y => Num (Z.max x y)
  | _, _ => NaN
  end.

(** [Math.floor(a / d)] for a positive integer constant [d]: the quotient
    rounded towards minus infinity. *)
Definition floor_div (a : number) (d : Z) : number :=
  match a with
  | Num x => Num (x / d)
  | NaN => NaN
  end.

(** [a % d]: the remainder has the sign of the dividend; a zero divisor
    gives not-a-number. *)
Definition rem (a : number) (d : Z) : number :=
  match a with
  | Num x => if d =? 0 then NaN else Num (Z.rem x d)
  | NaN => NaN
  end.

(** The comparisons are all false when an operand is not-a-number. *)
Definition gt (a b : number) : bool :=
  match a, b with
  | Num x, Num y => y <? x
  | _, _ => false
  end.

Definition lt (a b : number) : bool :=
  match a, b with
  | Num x, Num y => x <? y
  | _, _ => false
  end.

Definition le (a b : number) : bool :=
  match a, b with
  | Num x, Num y => x <=? y
  | _, _ => false
  end.

(** [a === b] (and [a == b]) on numbers. *)
Definition eq (a b : number) : bool :=
  match a, b with
  | Num x, Num y => x =? y
  | _, _ => false
  end.

(** [a.toString()] *)
Definition toString (a : number) : string :=
  match a with
  | Num x => NilZero.string_of_int (Z.to_int x)
  | NaN => "NaN"
  end.

(** ** JavaScript strings *)

(** A string is falsy exactly when it is empty. *)
Definition truthy (s : string) : bool :=
  match s with
  | EmptyString => false
  | String _ _ => true
  end.

(** [k || d] for an optional string [k]. *)
Definition or_default (k : option string) (d : string) : string :=
  match k with
  | Some s => if truthy s then s else d
  | None => d
  end.

(** [fill] repeated and cut to [n] characters. *)
Fixpoint repeat_to (n : nat) (fill cur : string) : string :=
  match n with
  | O => ""
  | S n' =>
      match cur with
      | String c rest => String c (repeat_to n' fill rest)
      | EmptyString =>
          match fill with
          | String c rest => String c (repeat_to n' fill rest)
          | EmptyString => ""
          end
      end
  end.

(** [s.padStart(targetLength, padString)] *)
Definition padStart (targetLength : nat) (padString : string) (s : string)
  : string :=
  if (targetLength <=? String.length s)%nat then s
  else repeat_to (targetLength - String.length s) padString padString ++ s.

Fixpoint drop (n : nat) (s : string) : string :=
  match n, s with
  | O, _ => s
  | S n', String _ rest => drop n' rest
  | S _, EmptyString => ""
  end.

(** [s.replace(pat, by_)] with a string pattern: the first occurrence
    only.  The replacement is always the text of a number here, so the
    dollar patterns of the replacement string never come into play. *)
Fixpoint replace (pat by_ s : string) : string :=
  if String.prefix pat s then by_ ++ drop (String.length pat) s
  else match s with
       | EmptyString => ""
       | String c rest => String c (replace pat by_ rest)
       end.

(** [parts.join(sep)] *)
Definition join (sep : string) (parts : list string) : string :=
  String.concat sep parts.

End JS.

(** ** The data model of countdownUtils *)

(** [TimeRemaining] *)
Record TimeRemaining : Type := mkTimeRemaining {
  hours : number;
  minutes : number;
  seconds : number;
  totalSeconds : number;
  isExpired : bool
}.

(** The target is [string | Date]; a [Date] object is its time value, which
    is not-a-number for an invalid date. *)
Inductive TargetDate : Type :=
| DateString (s : string)
| DateObject (timeValue : number).

(** The seven message slots of [TranslationOptions.keys]. *)
Module Keys.
Record t : Type := mk {
  availableNow : option string;
  oneHour : option string;
  hours : option string;
  oneMinute : option string;
  minutes : option string;
  oneSecond : option string;
  seconds : option string
}.
Definition none : t := mk None None None None None None None.
End Keys.

(** The translation function [(key, params?) => string]; the only params
    the formatters pass are [{ count }]. *)
Definition Translate : Type := string -> option number -> string.

(** [CountdownFormatOptions & TranslationOptions], with the two switches
    the compact formatter adds.  An absent field is [None]. *)
Record FormatOptions : Type := mkFormatOptions {
  showSecondsThreshold : option number;
  separator : option string;
  showZeros : option bool;
  timezone : option string;
  t : option Translate;
  keys : option Keys.t;
  showHours : option bool;
  showSeconds : option bool
}.

Definition noOptions : FormatOptions :=
  mkFormatOptions None None None None None None None None.

(** A destructuring default [x = d]: used when the field is undefined. *)
Definition default {A : Type} (o : option A) (d : A) : A :=
  match o with
  | Some x => x
  | None => d
  end.

(** [options || {}] followed by a field access. *)
Definition field {A : Type} (f : FormatOptions -> option A)
  (options : option FormatOptions) : option A :=
  match options with
  | Some o => f o
  | None => None
  end.

(** [keys?.slot] *)
Definition slot (f : Keys.t -> option string) (ks : option Keys.t)
  : option string :=
  match ks with
  | Some k => f k
  | None => None
  end.

Section Countdown.

(** [new Date(s).getTime()] for a string [s]: the host's date parser. *)
Variable Date_parse : string -> number.

Definition getTime (targetDate : TargetDate) : number :=
  match targetDate with
  | DateString s => Date_parse s
  | DateObject tv => tv
  end.

(** [Math.max(0, target - now)] *)
Definition difference (now : Z) (target : number) : number :=
  JS.max (Num 0) (JS.sub target (Num now)).

(** [calculateTimeRemaining(targetDate, options)], the clock reading
    [new Date().getTime()] made explicit as [now]; [options] is the optional
    object, its content the optional [timezone]. *)
Definition calculateTimeRemaining (now : Z) (targetDate : TargetDate)
  (options : option (option string)) : TimeRemaining :=
  let target := getTime targetDate in
  let difference := difference now target in
  let totalSeconds := JS.floor_div difference 1000 in
  let hours := JS.floor_div totalSeconds 3600 in
  let minutes := JS.floor_div (JS.rem totalSeconds 3600) 60 in
  let seconds := JS.rem totalSeconds 60 in
  let isExpired := JS.le totalSeconds (Num 0) in
  {| hours := hours;
     minutes := minutes;
     seconds := seconds;
     totalSeconds := totalSeconds;
     isExpired := isExpired |}.

(** The message returned when the countdown is expired and when no part
    was produced: [keys?.availableNow || 'Available now'], passed through
    [t] when there is one.  The source writes these two lines out at both
    places. *)
Definition availableNowMessage (t : option Translate)
  (keys : option Keys.t) : string :=
  let availableNowKey :=
    JS.or_default (slot Keys.availableNow keys) "Available now" in
  match t with
  | Some tr => tr availableNowKey None
  | None => availableNowKey
  end.

(** One block of [formatCountdown]: what it pushes on [parts] for a unit,
    given the outer test [shown] ([count > 0 || ...]) and the singular and
    plural keys with their built-in wording. *)
Definition unitPart (shown : bool) (count : number)
  (t : option Translate) (oneKey manyKey : option string)
  (oneText manyText : string) : list string :=
  if shown then
    if JS.eq count (Num 1) then
      let oneUnitKey := JS.or_default oneKey oneText in
      [match t with
       | Some tr => tr oneUnitKey None
       | None => oneUnitKey
       end]
    else if JS.gt count (Num 0) then
      let unitKey := JS.or_default manyKey manyText in
      let formatted := JS.replace "{{count}}" (JS.toString count) unitKey in
      [match t with
       | Some tr => tr unitKey (Some count)
       | None => formatted
       end]
    else []
  else [].

Definition hoursPart (showZeros : bool) (t : option Translate)
  (keys : option Keys.t) (r : TimeRemaining) : list string :=
  unitPart (JS.gt (hours r) (Num 0) || showZeros) (hours r) t
    (slot Keys.oneHour keys) (slot Keys.hours keys)
    "1 hour" "{{count}} hours".

Definition minutesPart (showZeros : bool) (t : option Translate)
  (keys : option Keys.t) (r : TimeRemaining) : list string :=
  unitPart (JS.gt (minutes r) (Num 0)
            || (showZeros && JS.eq (hours r) (Num 0)))
    (minutes r) t
    (slot Keys.oneMinute keys) (slot Keys.minutes keys)
    "1 minute" "{{count}} minutes".

Definition secondsPart (showSecondsThreshold : number) (showZeros : bool)
  (t : option Translate) (keys : option Keys.t) (r : TimeRemaining)
  : list string :=
  if JS.eq (hours r) (Num 0) && JS.lt (minutes r) showSecondsThreshold then
    unitPart (JS.gt (seconds r) (Num 0) || showZeros) (seconds r) t
      (slot Keys.oneSecond keys) (slot Keys.seconds keys)
      "1 second" "{{count}} seconds"
  else [].

(** The [parts] array of [formatCountdown] once the three blocks ran. *)
Definition countdownParts (options : option FormatOptions)
  (r : TimeRemaining) : list string :=
  let showSecondsThreshold :=
    default (field showSecondsThreshold options) (Num 5) in
  let showZeros := default (field showZeros options) false in
  let t := field t options in
  let keys := field keys options in
  (hoursPart showZeros t keys r
   ++ minutesPart showZeros t keys r
   ++ secondsPart showSecondsThreshold showZeros t keys r)%list.

(** [formatCountdown(targetDate, options)] *)
Definition formatCountdown (now : Z) (targetDate : TargetDate)
  (options : option FormatOptions) : string :=
  let separator := default (field separator options) " " in
  let t := field t options in
  let keys := field keys options in
  let r := calculateTimeRemaining now targetDate
             (Some (field timezone options)) in
  if isExpired r then availableNowMessage t keys
  else
    let parts := countdownParts options r in
    if (List.length parts =? 0)%nat then availableNowMessage t keys
    else JS.join separator parts.

(** The [parts] array of [formatCountdownShort]. *)
Definition shortParts (showSecondsThreshold : number) (r : TimeRemaining)
  : list string :=
  ((if JS.gt (hours r) (Num 0)
    then [(JS.toString (hours r) ++ "h")%string] else [])
   ++ (if JS.gt (minutes r) (Num 0)
       then [(JS.toString (minutes r) ++ "m")%string] else [])
   ++ (if JS.eq (hours r) (Num 0) && JS.lt (minutes r) showSecondsThreshold
       then if JS.gt (seconds r) (Num 0)
            then [(JS.toString (seconds r) ++ "s")%string] else []
       else []))%list.

(** [formatCountdownShort(targetDate, options)] *)
Definition formatCountdownShort (now : Z) (targetDate : TargetDate)
  (options : option FormatOptions) : string :=
  let showSecondsThreshold :=
    default (field showSecondsThreshold options) (Num 5) in
  let separator := default (field separator options) " " in
  let r := calculateTimeRemaining now targetDate
             (Some (field timezone options)) in
  if isExpired r then "0m"
  else
    let parts := shortParts showSecondsThreshold r in
    if (0 <? List.length parts)%nat then JS.join separator parts else "0m".

(** [n.toString().padStart(2, '0')] *)
Definition pad2 (n : number) : string :=
  JS.padStart 2 "0" (JS.toString n).

(** What [formatCountdownCompact] returns for a remaining time that is not
    expired. *)
Definition compactFields (showHours showSeconds : bool) (r : TimeRemaining)
  : string :=
  if showHours then
    let h := pad2 (hours r) in
    let m := pad2 (minutes r) in
    let s := if showSeconds then pad2 (seconds r) else "" in
    if showSeconds then h ++ ":" ++ m ++ ":" ++ s else h ++ ":" ++ m
  else
    let totalMinutes := JS.add (JS.mul (hours r) (Num 60)) (minutes r) in
    let m := pad2 totalMinutes in
    let s := if showSeconds then pad2 (seconds r) else "" in
    if showSeconds then m ++ ":" ++ s else m.

(** [formatCountdownCompact(targetDate, options)]; the calculator is called
    without options here. *)
Definition formatCountdownCompact (now : Z) (targetDate : TargetDate)
  (options : option FormatOptions) : string :=
  let showHours := default (field showHours options) true in
  let showSeconds := default (field showSeconds options) true in
  let r := calculateTimeRemaining now targetDate None in
  if isExpired r then (if showHours then "0:00:00" else "0:00")
  else compactFields showHours showSeconds r.

End Countdown.

(** ** The hook: useCountdown *)

(** The hook's first argument, [string | Date | null | undefined]. *)
Inductive TargetInput : Type :=
| Undefined
| Null
| Target (d : TargetDate).

(** Truthiness of a target: the empty string is falsy, a [Date] object is
    always truthy. *)
Definition truthyTarget (d : TargetDate) : bool :=
  match d with
  | DateString s => JS.truthy s
  | DateObject _ => true
  end.

(** [targetDate || null] *)
Definition orNull (targetDate : TargetInput) : option TargetDate :=
  match targetDate with
  | Target d => if truthyTarget d then Some d else None
  | Null | Undefined => None
  end.

(** [currentTarget] read as a condition; [None] is [null]. *)
Definition truthyCurrent (currentTarget : option TargetDate) : bool :=
  match currentTarget with
  | Some d => truthyTarget d
  | None => false
  end.

(** The object both [useState] initialiser and [updateCountdown] write when
    there is no target. *)
Definition noTargetRemaining : TimeRemaining :=
  {| hours := Num 0;
     minutes := Num 0;
     seconds := Num 0;
     totalSeconds := Num 0;
     isExpired := true |}.

(** The three [useState] cells. *)
Record HookState : Type := mkHookState {
  currentTarget : option TargetDate;
  isActive : bool;
  timeRemaining : TimeRemaining
}.

(** What a render returns, the three control functions apart (they are the
    state transformers [start], [stop] and [reset] below). *)
Module Return.
Record t : Type := mk {
  timeRemaining : TimeRemaining;
  formatted : string;
  short : string;
  compact : string;
  isActive : bool
}.
End Return.

Section Hook.

Variable Date_parse : string -> number.

(** What the [onExpire] callback acts on: a callback is a transformer of
    the world outside the hook. *)
Variable World : Type.

(** [UseCountdownOptions]: [interval], [autoStart] and [onExpire], and the
    rest of the object, [formatOptions]. *)
Record UseCountdownOptions : Type := mkUseCountdownOptions {
  interval : option number;
  autoStart : option bool;
  onExpire : option (World -> World);
  formatOptions : FormatOptions
}.

(** [options || {}] *)
Definition noHookOptions : UseCountdownOptions :=
  mkUseCountdownOptions None None None noOptions.

(** The state after the [useState] initialisers of the first render, the
    clock reading [now]. *)
Definition initialState (now : Z) (targetDate : TargetInput)
  (options : option UseCountdownOptions) : HookState :=
  let o := default options noHookOptions in
  let currentTarget := orNull targetDate in
  {| currentTarget := currentTarget;
     isActive := default (autoStart o) true;
     timeRemaining :=
       match currentTarget with
       | Some d =>
           if truthyTarget d
           then calculateTimeRemaining Date_parse now d
                  (Some (timezone (formatOptions o)))
           else noTargetRemaining
       | None => noTargetRemaining
       end |}.

Definition setTimeRemaining (r : TimeRemaining) (st : HookState)
  : HookState :=
  {| currentTarget := currentTarget st;
     isActive := isActive st;
     timeRemaining := r |}.

(** [updateCountdown()], closed over the [currentTarget] of the state it
    was created in, run at clock reading [now]. *)
Definition updateCountdown (options : option UseCountdownOptions)
  (now : Z) (st : HookState) (w : World) : HookState * World :=
  let o := default options noHookOptions in
  match currentTarget st with
  | Some d =>
      if truthyTarget d then
        let remaining :=
          calculateTimeRemaining Date_parse now d
            (Some (timezone (formatOptions o))) in
        let st' := setTimeRemaining remaining st in
        match onExpire o with
        | Some callback =>
            if isExpired remaining then (st', callback w) else (st', w)
        | None => (st', w)
        end
      else (setTimeRemaining noTargetRemaining st, w)
  | None => (setTimeRemaining noTargetRemaining st, w)
  end.

(** The interval effect installs a timer only when [isActive] and
    [currentTarget] hold; one firing of that timer runs [updateCountdown]. *)
Definition tick (options : option UseCountdownOptions)
  (now : Z) (sw : HookState * World) : HookState * World :=
  let (st, w) := sw in
  if isActive st && truthyCurrent (currentTarget st)
  then updateCountdown options now st w
  else (st, w).

(** The timer firing at each clock reading of [nows] in turn. *)
Fixpoint ticks (options : option UseCountdownOptions)
  (nows : list Z) (sw : HookState * World) : HookState * World :=
  match nows with
  | [] => sw
  | now :: later => ticks options later (tick options now sw)
  end.

(** The two effects of the first render: the interval effect updates at
    once when it installs the timer; the target effect adopts the argument
    and updates, unless the argument is undefined.  The update of the
    second effect still sees the [currentTarget] of the render. *)
Definition mount (options : option UseCountdownOptions) (now : Z)
  (targetDate : TargetInput) (sw : HookState * World)
  : HookState * World :=
  let (st1, w1) := tick options now sw in
  match targetDate with
  | Undefined => (st1, w1)
  | _ =>
      let (st2, w2) := updateCountdown options now st1 w1 in
      ({| currentTarget := orNull targetDate;
          isActive := isActive st2;
          timeRemaining := timeRemaining st2 |}, w2)
  end.

(** [start()] and [stop()] *)
Definition start (st : HookState) : HookState :=
  {| currentTarget := currentTarget st;
     isActive := true;
     timeRemaining := timeRemaining st |}.


(** [reset(newTargetDate)]: the three calls of the handler.  The
    [updateCountdown] it runs is the one of the render the handler comes
    from, closed over the [currentTarget] of that render, whatever
    [setCurrentTarget] was just asked to store. *)
Definition reset (options : option UseCountdownOptions) (now : Z)
  (newTargetDate : TargetDate) (st : HookState) (w : World)
  : HookState * World :=
  let (st', w') := updateCountdown options now st w in
  ({| currentTarget := Some newTargetDate;
      isActive := true;
      timeRemaining := timeRemaining st' |}, w').

(** What a render returns in state [st]; the three formatters read the
    clock one after the other, at [nowF], [nowS] and [nowC]. *)
Definition render (options : option UseCountdownOptions)
  (nowF nowS nowC : Z) (st : HookState) : Return.t :=
  let o := default options noHookOptions in
  {| Return.timeRemaining := timeRemaining st;
     Return.formatted :=
       match currentTarget st with
       | Some d =>
           if truthyTarget d
           then formatCountdown Date_parse nowF d (Some (formatOptions o))
           else ""
       | None => ""
       end;
     Return.short :=
       match currentTarget st with
       | Some d =>
           if truthyTarget d
           then formatCountdownShort Date_parse nowS d
                  (Some (formatOptions o))
           else ""
       | None => ""
       end;
     Return.compact :=
       match currentTarget st with
       | Some d =>
           if truthyTarget d
           then formatCountdownCompact Date_parse nowC d
                  (Some (formatOptions o))
           else ""
       | None => ""
       end;
     Return.isActive := isActive st |}.

(** [useCountdown(targetDate, options)] on its first call: the state is
    initialised at clock reading [now] and rendered. *)
Definition useCountdown (now nowF nowS nowC : Z) (targetDate : TargetInput)
  (options : option UseCountdownOptions) : Return.t :=
  render options nowF nowS nowC (initialState now targetDate options).

End Hook.

(** ** A host date parser to run the definitions on

    [Date_parse] is the host's.  The standard fixes its result on the
    date-time string format only; [Iso.parse] reads the UTC form
    [YYYY-MM-DDTHH:mm:ssZ] of that format, the one the examples of the
    source use, and gives not-a-number on every other text.  It serves to
    evaluate the definitions above at concrete strings. *)

Module Iso.

Definition digit (c : ascii) : option Z :=
  let n := Z.of_nat (nat_of_ascii c) in
  if (48 <=? n) && (n <=? 57) then Some (n - 48) else None.

(** [width] decimal digits at the head of [s]. *)
Fixpoint digits (width : nat) (acc : Z) (s : string) : option (Z * string) :=
  match width with
  | O => Some (acc, s)
  | S w =>
      match s with
      | String c rest =>
          match digit c with
          | Some d => digits w (acc * 10 + d) rest
          | None => None
          end
      | EmptyString => None
      end
  end.

Definition literal (c : ascii) (s : string) : option string :=
  match s with
  | String c' rest => if Ascii.eqb c c' then Some rest else None
  | EmptyString => None
  end.

Definition leap (y : Z) : bool :=
  (y mod 4 =? 0) && (negb (y mod 100 =? 0) || (y mod 400 =? 0)).

Definition daysInMonth (y m : Z) : Z :=
  if m =? 2 then (if leap y then 29 else 28)
  else if (m =? 4) || (m =? 6) || (m =? 9) || (m =? 11) then 30
  else 31.

(** Days from 1970-01-01 to the civil date [y]-[m]-[d]. *)
Definition daysFromCivil (y m d : Z) : Z :=
  let y' := if m <=? 2 then y - 1 else y in
  let era := y' / 400 in
  let yoe := y' - era * 400 in
  let mp := if 2 <? m then m - 3 else m + 9 in
  let doy := (153 * mp + 2) / 5 + d - 1 in
  let doe := yoe * 365 + yoe / 4 - yoe / 100 + doy in
  era * 146097 + doe - 719468.

Definition bind {A B : Type} (o : option A) (k : A -> option B) : option B :=
  match o with
  | Some a => k a
  | None => None
  end.

Definition epochMillis (s : string) : option Z :=
  bind (digits 4 0 s) (fun '(y, s) =>
  bind (literal "-" s) (fun s =>
  bind (digits 2 0 s) (fun '(mo, s) =>
  bind (literal "-" s) (fun s =>
  bind (digits 2 0 s) (fun '(d, s) =>
  bind (literal "T" s) (fun s =>
  bind (digits 2 0 s) (fun '(h, s) =>
  bind (literal ":" s) (fun s =>
  bind (digits 2 0 s) (fun '(mi, s) =>
  bind (literal ":" s) (fun s =>
  bind (digits 2 0 s) (fun '(se, s) =>
  bind (literal "Z" s) (fun s =>
  if JS.truthy s then None
  else if (1 <=? mo) && (mo <=? 12) && (1 <=? d) && (d <=? daysInMonth y mo)
          && (h <=? 23) && (mi <=? 59) && (se <=? 59)
  then Some ((((daysFromCivil y mo d * 24 + h) * 60 + mi) * 60 + se) * 1000)
  else None)))))))))))).

Definition parse (s : string) : number :=
  match epochMillis s with
  | Some ms => Num ms
  | None => NaN
  end.

End Iso.

(** ** Regular expressions

    The specification states the shape of the compact rendering as a
    regular expression, so the file carries a small matcher: the usual
    relational meaning, and derivatives to decide it. *)

Module Re.

Inductive regex : Type :=
| Void
| Eps
| Class (p : ascii -> bool)
| Seq (r1 r2 : regex)
| Alt (r1 r2 : regex)
| Star (r : regex).

Inductive matches : regex -> list ascii -> Prop :=
| MEps : matches Eps []
| MClass p c : p c = true -> matches (Class p) [c]
| MSeq r1 r2 w1 w2 :
    matches r1 w1 -> matches r2 w2 -> matches (Seq r1 r2) (w1 ++ w2)
| MAltL r1 r2 w : matches r1 w -> matches (Alt r1 r2) w
| MAltR r1 r2 w : matches r2 w -> matches (Alt r1 r2) w
| MStarNil r : matches (Star r) []
| MStarApp r w1 w2 :
    matches r w1 -> matches (Star r) w2 -> matches (Star r) (w1 ++ w2).

Fixpoint nullable (r : regex) : bool :=
  match r with
  | Void => false
  | Eps => true
  | Class _ => false
  | Seq r1 r2 => nullable r1 && nullable r2
  | Alt r1 r2 => nullable r1 || nullable r2
  | Star _ => true
  end.

Fixpoint deriv (c : ascii) (r : regex) : regex :=
  match r with
  | Void => Void
  | Eps => Void
  | Class p => if p c then Eps else Void
  | Seq r1 r2 =>
      if nullable r1
      then Alt (Seq (deriv c r1) r2) (deriv c r2)
      else Seq (deriv c r1) r2
  | Alt r1 r2 => Alt (deriv c r1) (deriv c r2)
  | Star r1 => Seq (deriv c r1) (Star r1)
  end.

Fixpoint matchb (r : regex) (w : list ascii) : bool :=
  match w with
  | [] => nullable r
  | c :: w' => matchb (deriv c r) w'
  end.

(** [r.test(s)] for an anchored expression [r]. *)
Definition test (r : regex) (s : string) : bool :=
  matchb r (list_ascii_of_string s).

Definition isDigit (c : ascii) : bool :=
  let n := nat_of_ascii c in (48 <=? n)%nat && (n <=? 57)%nat.

(** The characters of a string are all decimal digits. *)
Definition allDigits (s : string) : Prop :=
  Forall (fun c => isDigit c = true) (list_ascii_of_string s).

Definition digit : regex := Class isDigit.
Definition chr (c : ascii) : regex := Class (Ascii.eqb c).
Definition plus (r : regex) : regex := Seq r (Star r).
Definition opt (r : regex) : regex := Alt r Eps.

(** [^\d+:\d{2}(:\d{2})?$] *)
Definition compact : regex :=
  Seq (plus digit)
    (Seq (chr ":")
       (Seq (Seq digit digit)
          (opt (Seq (chr ":") (Seq digit digit))))).

End Re.

(** ** Reading a rendering back

    To state that a rendering loses nothing, its text is cut at the colons
    and each field read as a decimal number. *)

Module Read.

(** The decimal value of a string of digits, leading zeros allowed. *)
Definition decimal (s : string) : option Z :=
  option_map Z.of_uint (NilEmpty.uint_of_string s).

(** [s.split(sep)] for a one-character separator. *)
Fixpoint split (sep : ascii) (s : string) : list string :=
  match s with
  | EmptyString => [""]
  | String c rest =>
      if Ascii.eqb c sep then "" :: split sep rest
      else match split sep rest with
           | field :: fields => String c field :: fields
           | [] => [String c ""]
           end
  end.

Fixpoint all {A : Type} (l : list (option A)) : option (list A) :=
  match l with
  | [] => Some []
  | Some x :: l' => option_map (cons x) (all l')
  | None :: _ => None
  end.

(** The numbers between the colons of [s]. *)
Definition fields (s : string) : option (list Z) :=
  all (List.map decimal (split ":" s)).

End Read.

(** [{ ...options, showZeros: b }] *)
Definition withShowZeros (b : option bool) (o : FormatOptions)
  : FormatOptions :=
  {| showSecondsThreshold := showSecondsThreshold o;
     separator := separator o;
     showZeros := b;
     timezone := timezone o;
     t := t o;
     keys := keys o;
     showHours := showHours o;
     showSeconds := showSeconds o |}.

(** The whole seconds from [now] to the instant [T], none when [T] is
    past: what [totalSeconds] holds for a target that is an instant. *)
Definition wholeSeconds (now T : Z) : Z := Z.max 0 (T - now) / 1000.

(** * Properties *)

(** ** The matcher decides the relation *)

Module ReFacts.
Import Re.

Ltac inv H := inversion H; subst; clear H.

(** A word [w1 ++ w2] known to be empty or to start with [c]: split on
    [w1]. *)
Ltac split_word :=
  match goal with
  | E : (?w1 ++ ?w2)%list = [] |- _ =>
      apply app_eq_nil in E; destruct E; subst
  | E : (?w1 ++ ?w2)%list = _ :: _ |- _ =>
      destruct w1; simpl in E; [subst | injection E as ? ?; subst]
  end.

Lemma nullable_spec (r : regex) : nullable r = true <-> matches r [].
Proof.
  induction r as [ | | p | r1 IH1 r2 IH2 | r1 IH1 r2 IH2 | r IH]; simpl.
  - split; [discriminate | intros H; inv H].
  - split; [constructor | reflexivity].
  - split; [discriminate | intros H; inv H].
  - rewrite andb_true_iff, IH1, IH2. split.
    + intros [H1 H2]. change (@nil ascii) with (@nil ascii ++ [])%list.
      now constructor.
    + intros H. inv H. split_word. now split.
  - rewrite orb_true_iff, IH1, IH2. split.
    + intros [H | H]; [now apply MAltL | now apply MAltR].
    + intros H; inv H; [now left | now right].
  - split; [constructor | reflexivity].
Qed.

Lemma star_cons (r : regex) (c : ascii) (w : list ascii) :
  matches (Star r) (c :: w) ->
  exists w1 w2, w = (w1 ++ w2)%list /\ matches r (c :: w1)
                /\ matches (Star r) w2.
Proof.
  intros H. remember (Star r) as R eqn:ER. remember (c :: w) as u eqn:Eu.
  revert c w Eu.
  induction H as [ | | | | | | r' w1 w2 H1 _ H2 IH2]; intros a v Eu;
    try discriminate.
  injection ER as ->. destruct w1 as [ | b w1'].
  - simpl in Eu. now apply IH2.
  - simpl in Eu. injection Eu as Ha Hv. subst a v. now exists w1', w2.
Qed.

Lemma seq_cons (r1 r2 : regex) (c : ascii) (w1 w2 : list ascii) :
  matches r1 (c :: w1) -> matches r2 w2 ->
  matches (Seq r1 r2) (c :: w1 ++ w2).
Proof.
  intros H1 H2. change (c :: w1 ++ w2)%list with ((c :: w1) ++ w2)%list.
  now constructor.
Qed.

Lemma deriv_spec (c : ascii) (r : regex) :
  forall w, matches (deriv c r) w <-> matches r (c :: w).
Proof.
  induction r as [ | | p | r1 IH1 r2 IH2 | r1 IH1 r2 IH2 | r IH];
    simpl; intros w.
  - split; intros H; inv H.
  - split; intros H; inv H.
  - destruct (p c) eqn:Hp; split; intros H; inv H;
      solve [now constructor | congruence].
  - assert (Hseq : matches (Seq (deriv c r1) r2) w ->
                   matches (Seq r1 r2) (c :: w)).
    { intros H. inv H. apply seq_cons; [now apply IH1 | assumption]. }
    destruct (nullable r1) eqn:Hn; split; intros H.
    + inv H; [now apply Hseq | ].
      change (c :: w) with ([] ++ c :: w)%list.
      constructor; [now apply nullable_spec | now apply IH2].
    + inv H. split_word.
      * apply MAltR. now apply IH2.
      * apply MAltL. constructor; [now apply IH1 | assumption].
    + now apply Hseq.
    + inv H. split_word.
      * match goal with
        | H1 : matches r1 [] |- _ => apply nullable_spec in H1; congruence
        end.
      * constructor; [now apply IH1 | assumption].
  - split; intros H; inv H;
      solve [apply MAltL; now apply IH1 | apply MAltR; now apply IH2].
  - split; intros H.
    + inv H. change (c :: w1 ++ w2)%list with ((c :: w1) ++ w2)%list.
      constructor; [now apply IH | assumption].
    + apply star_cons in H as (w1 & w2 & -> & H1 & H2).
      constructor; [now apply IH | assumption].
Qed.

Lemma matchb_spec (r : regex) (w : list ascii) :
  matchb r w = true <-> matches r w.
Proof.
  revert r. induction w as [ | c w IH]; intros r; simpl.
  - apply nullable_spec.
  - rewrite IH. apply deriv_spec.
Qed.

End ReFacts.

(** ** The calculator on instants *)

Section Calculator.

Variable Date_parse : string -> number.

Lemma wholeSeconds_nonneg (now T : Z) : 0 <= wholeSeconds now T.
Proof. unfold wholeSeconds. apply Z.div_pos; lia. Qed.

Lemma wholeSeconds_zero_iff (now T : Z) :
  wholeSeconds now T = 0 <-> T - now < 1000.
Proof.
  unfold wholeSeconds. rewrite Z.div_small_iff by lia. lia.
Qed.

Lemma wholeSeconds_past (now T : Z) : T <= now -> wholeSeconds now T = 0.
Proof. intros H. apply wholeSeconds_zero_iff. lia. Qed.

(** On a target that is an instant every field is an integer, computed
    from [wholeSeconds]. *)
Lemma calc_instant (now T : Z) (targetDate : TargetDate)
  (options : option (option string)) :
  getTime Date_parse targetDate = Num T ->
  calculateTimeRemaining Date_parse now targetDate options =
    let ts := wholeSeconds now T in
    {| hours := Num (ts / 3600);
       minutes := Num (Z.rem ts 3600 / 60);
       seconds := Num (Z.rem ts 60);
       totalSeconds := Num ts;
       isExpired := ts <=? 0 |}.
Proof.
  intros HT. unfold calculateTimeRemaining, difference. rewrite HT.
  reflexivity.
Qed.

(** On a target that is no instant every field is not-a-number and the
    countdown does not count as expired. *)
Lemma calc_invalid (now : Z) (targetDate : TargetDate)
  (options : option (option string)) :
  getTime Date_parse targetDate = NaN ->
  calculateTimeRemaining Date_parse now targetDate options =
    {| hours := NaN; minutes := NaN; seconds := NaN;
       totalSeconds := NaN; isExpired := false |}.
Proof.
  intros HT. unfold calculateTimeRemaining, difference. rewrite HT.
  reflexivity.
Qed.

(** C1.  For a target instant [T] at or before [now] the calculator
    returns [totalSeconds = 0] and [isExpired = true]; the difference
    [Math.max(0, target - now)] is never negative and is zero for such a
    target; and for every target instant [isExpired] is the test
    [totalSeconds <= 0], true exactly when [totalSeconds] is zero, that is
    exactly when less than one whole second is left. *)
Theorem calculateTimeRemaining_expired (now T : Z)
  (targetDate : TargetDate) (options : option (option string)) :
  getTime Date_parse targetDate = Num T ->
  let r := calculateTimeRemaining Date_parse now targetDate options in
  (T <= now -> totalSeconds r = Num 0 /\ isExpired r = true)
  /\ (exists d, difference now (Num T) = Num d /\ 0 <= d
                /\ (T <= now -> d = 0))
  /\ isExpired r = JS.le (totalSeconds r) (Num 0)
  /\ (isExpired r = true <-> totalSeconds r = Num 0)
  /\ (isExpired r = true <-> T - now < 1000).
Proof.
  intros HT r. subst r. rewrite (calc_instant _ _ _ _ HT).
  cbn [totalSeconds isExpired].
  pose proof (wholeSeconds_nonneg now T) as Hge.
  pose proof (wholeSeconds_zero_iff now T) as Hz.
  repeat split.
  - f_equal. now apply wholeSeconds_past.
  - apply Z.leb_le. rewrite wholeSeconds_past; lia.
  - exists (Z.max 0 (T - now)). repeat split; simpl; lia.
  - intros H. f_equal. apply Z.leb_le in H. lia.
  - intros H. injection H as ->. reflexivity.
  - intros H. apply Z.leb_le in H. apply Hz. lia.
  - intros H. apply Z.leb_le. apply Hz in H. lia.
Qed.

(** C2.  For every target instant the fields are integers with
    [hours*3600 + minutes*60 + seconds = totalSeconds], [hours] and
    [totalSeconds] non-negative, [minutes] and [seconds] within 0..59, and
    each of the three is the decomposition of [totalSeconds]; the equality
    also holds as the code would test it. *)
Theorem calculateTimeRemaining_decomposition (now T : Z)
  (targetDate : TargetDate) (options : option (option string)) :
  getTime Date_parse targetDate = Num T ->
  let r := calculateTimeRemaining Date_parse now targetDate options in
  exists h m s ts,
    hours r = Num h /\ minutes r = Num m /\ seconds r = Num s
    /\ totalSeconds r = Num ts
    /\ h * 3600 + m * 60 + s = ts
    /\ 0 <= h /\ 0 <= ts /\ 0 <= m <= 59 /\ 0 <= s <= 59
    /\ h = ts / 3600 /\ m = (ts mod 3600) / 60 /\ s = ts mod 60
    /\ JS.eq (JS.add (JS.add (JS.mul (hours r) (Num 3600))
                             (JS.mul (minutes r) (Num 60)))
                     (seconds r))
             (totalSeconds r) = true.
Proof.
  intros HT r. subst r. rewrite (calc_instant _ _ _ _ HT).
  cbn [hours minutes seconds totalSeconds].
  pose proof (wholeSeconds_nonneg now T) as Hge.
  set (ts := wholeSeconds now T) in *.
  rewrite !Z.rem_mod_nonneg by lia.
  assert (Hsum : ts / 3600 * 3600 + ts mod 3600 / 60 * 60 + ts mod 60 = ts).
  { pose proof (Z.div_mod ts 3600 ltac:(lia)) as H1.
    pose proof (Z.div_mod (ts mod 3600) 60 ltac:(lia)) as H2.
    assert (H3 : (ts mod 3600) mod 60 = ts mod 60).
    { apply (Z.mod_unique ts 60 (ts / 3600 * 60 + ts mod 3600 / 60)).
      - left. apply Z.mod_pos_bound. lia.
      - lia. }
    lia. }
  exists (ts / 3600), (ts mod 3600 / 60), (ts mod 60), ts.
  pose proof (Z.mod_pos_bound ts 3600 ltac:(lia)) as B1.
  pose proof (Z.mod_pos_bound ts 60 ltac:(lia)) as B2.
  assert (0 <= ts / 3600) by (apply Z.div_pos; lia).
  assert (0 <= ts mod 3600 / 60 <= 59).
  { split; [apply Z.div_pos; lia | ].
    apply Z.lt_succ_r. apply Z.div_lt_upper_bound; lia. }
  repeat split; try reflexivity; try lia.
  simpl. apply Z.eqb_eq. exact Hsum.
Qed.

(** C9.  The calculator does not read its options: whatever the two
    [timezone] values (or absent options), two calls at the same clock
    reading return the same value for the same target; and the value
    depends on the target through its epoch-millisecond time value only, a
    date string giving what the [Date] object of its time value gives. *)
Theorem calculateTimeRemaining_ignores_timezone (now : Z)
  (targetDate : TargetDate) (s : string)
  (options1 options2 : option (option string)) :
  calculateTimeRemaining Date_parse now targetDate options1
  = calculateTimeRemaining Date_parse now targetDate options2
  /\ calculateTimeRemaining Date_parse now (DateString s) options1
     = calculateTimeRemaining Date_parse now (DateObject (Date_parse s))
         options2
  /\ calculateTimeRemaining Date_parse now targetDate options1
     = let ts :=
         JS.floor_div
           (JS.max (Num 0) (JS.sub (getTime Date_parse targetDate) (Num now)))
           1000 in
       {| hours := JS.floor_div ts 3600;
          minutes := JS.floor_div (JS.rem ts 3600) 60;
          seconds := JS.rem ts 60;
          totalSeconds := ts;
          isExpired := JS.le ts (Num 0) |}.
Proof. repeat split. Qed.

End Calculator.

Lemma calculateTimeRemaining_expired_witness :
  getTime Iso.parse (DateString "2024-12-31T23:59:59Z") = Num 1735689599000
  /\ 1735689599000 <= 1735689600000
  /\ totalSeconds (calculateTimeRemaining Iso.parse 1735689600000
                     (DateString "2024-12-31T23:59:59Z") None) = Num 0
  /\ isExpired (calculateTimeRemaining Iso.parse 1735689600000
                  (DateString "2024-12-31T23:59:59Z") None) = true.
Proof.
  assert (H : getTime Iso.parse (DateString "2024-12-31T23:59:59Z")
              = Num 1735689599000) by reflexivity.
  assert (L : 1735689599000 <= 1735689600000) by lia.
  split; [exact H | ]. split; [exact L | ].
  exact (proj1 (calculateTimeRemaining_expired Iso.parse
                  1735689600000 1735689599000 _ None H) L).
Defined.

Lemma calculateTimeRemaining_decomposition_witness :
  getTime Iso.parse (DateString "2024-12-31T23:59:59Z") = Num 1735689599000
  /\ exists h m s ts,
       let r := calculateTimeRemaining Iso.parse 1735669799000
                  (DateString "2024-12-31T23:59:59Z") None in
       hours r = Num h /\ minutes r = Num m /\ seconds r = Num s
       /\ totalSeconds r = Num ts /\ h * 3600 + m * 60 + s = ts.
Proof.
  assert (H : getTime Iso.parse (DateString "2024-12-31T23:59:59Z")
              = Num 1735689599000) by reflexivity.
  split; [exact H | ].
  destruct (calculateTimeRemaining_decomposition Iso.parse
              1735669799000 1735689599000 _ None H)
    as (h & m & s & ts & Hh & Hm & Hs & Hts & Hsum & _).
  exists h, m, s, ts. simpl. auto.
Defined.

(** ** The formatters *)

Section Formatters.

Variable Date_parse : string -> number.

Lemma isExpired_past (now T : Z) (targetDate : TargetDate)
  (options : option (option string)) :
  getTime Date_parse targetDate = Num T -> T <= now ->
  isExpired (calculateTimeRemaining Date_parse now targetDate options) = true.
Proof.
  intros HT Hle. rewrite (calc_instant Date_parse now T _ _ HT).
  cbn [isExpired]. now rewrite wholeSeconds_past.
Qed.

(** C6.  For a target instant at or before [now] each formatter returns
    its sentinel from the [isExpired] branch: [formatCountdown] the
    available-now key ([keys.availableNow], or the literal [Available now]),
    passed through [t] when a translation function is given;
    [formatCountdownShort] the text [0m]; [formatCountdownCompact] the text
    [0:00:00] when hours are shown and [0:00] when they are not. *)
Theorem formatters_expired (now T : Z) (targetDate : TargetDate)
  (options : option FormatOptions) :
  getTime Date_parse targetDate = Num T -> T <= now ->
  formatCountdown Date_parse now targetDate options
  = (let availableNowKey :=
       JS.or_default (slot Keys.availableNow (field keys options))
         "Available now" in
     match field t options with
     | Some tr => tr availableNowKey None
     | None => availableNowKey
     end)
  /\ (field t options = None -> field keys options = None ->
      formatCountdown Date_parse now targetDate options = "Available now")
  /\ formatCountdownShort Date_parse now targetDate options = "0m"
  /\ formatCountdownCompact Date_parse now targetDate options
     = (if default (field showHours options) true
        then "0:00:00" else "0:00").
Proof.
  intros HT Hle.
  unfold formatCountdown, formatCountdownShort, formatCountdownCompact.
  rewrite !(isExpired_past now T) by assumption.
  repeat split.
  intros Ht Hk. unfold availableNowMessage. rewrite Ht, Hk. reflexivity.
Qed.

Lemma wholeSeconds_ahead (now ms : Z) :
  wholeSeconds now (now + ms) = Z.max 0 ms / 1000.
Proof. unfold wholeSeconds. f_equal. lia. Qed.

(** C7.  With no options, a target 5 hours 30 minutes after [now] is
    rendered [5 hours 30 minutes], [5h 30m] and [05:30:00], and a target
    4 minutes 10 seconds after [now] is rendered [4m 10s] by the short
    formatter. *)
Theorem formatters_examples (now : Z) (in5h30m in4m10s : TargetDate) :
  getTime Date_parse in5h30m
  = Num (now + (5 * 3600 + 30 * 60 + 0) * 1000) ->
  getTime Date_parse in4m10s = Num (now + (4 * 60 + 10) * 1000) ->
  formatCountdown Date_parse now in5h30m None = "5 hours 30 minutes"
  /\ formatCountdownShort Date_parse now in5h30m None = "5h 30m"
  /\ formatCountdownCompact Date_parse now in5h30m None = "05:30:00"
  /\ formatCountdownShort Date_parse now in4m10s None = "4m 10s".
Proof.
  intros H1 H2.
  unfold formatCountdown, formatCountdownShort, formatCountdownCompact.
  rewrite !(calc_instant Date_parse now _ in5h30m _ H1).
  rewrite !(calc_instant Date_parse now _ in4m10s _ H2).
  rewrite !wholeSeconds_ahead.
  repeat split; vm_compute; reflexivity.
Qed.

(** What the three blocks of [formatCountdown] push when every field is
    not-a-number: nothing, whatever the options. *)
Lemma countdownParts_invalid (options : option FormatOptions) :
  countdownParts options
    {| hours := NaN; minutes := NaN; seconds := NaN;
       totalSeconds := NaN; isExpired := false |} = [].
Proof.
  unfold countdownParts, hoursPart, minutesPart, secondsPart, unitPart.
  cbn [hours minutes seconds JS.gt JS.eq JS.lt orb andb].
  destruct (default (field showZeros options) false); reflexivity.
Qed.

(** C8, as the code has it.  A date string the host cannot parse raises
    nothing (every function here is total) but the result is not the
    expired one: the calculator returns not-a-number in the four numeric
    fields with [isExpired = false].  [formatCountdown] and
    [formatCountdownShort] still end on their fallback for an empty list
    of parts, which is the text they give on expiry; [formatCountdownCompact]
    renders the not-a-number fields. *)
Theorem unparseable_target (now : Z) (s : string)
  (options : option FormatOptions) (calcOptions : option (option string)) :
  Date_parse s = NaN ->
  calculateTimeRemaining Date_parse now (DateString s) calcOptions
  = {| hours := NaN; minutes := NaN; seconds := NaN;
       totalSeconds := NaN; isExpired := false |}
  /\ formatCountdown Date_parse now (DateString s) options
     = availableNowMessage (field t options) (field keys options)
  /\ formatCountdownShort Date_parse now (DateString s) options = "0m"
  /\ formatCountdownCompact Date_parse now (DateString s) options
     = match default (field showHours options) true,
             default (field showSeconds options) true with
       | true, true => "NaN:NaN:NaN"
       | true, false => "NaN:NaN"
       | false, true => "NaN:NaN"
       | false, false => "NaN"
       end.
Proof.
  intros Hs.
  assert (HT : getTime Date_parse (DateString s) = NaN) by exact Hs.
  unfold formatCountdown, formatCountdownShort, formatCountdownCompact.
  rewrite !(calc_invalid Date_parse now _ _ HT).
  cbn [isExpired]. rewrite countdownParts_invalid.
  repeat split.
  destruct (default (field showHours options) true),
           (default (field showSeconds options) true); reflexivity.
Qed.

End Formatters.

Lemma formatters_expired_witness :
  getTime Iso.parse (DateString "2024-12-31T23:59:59Z") = Num 1735689599000
  /\ 1735689599000 <= 1735689600000
  /\ formatCountdown Iso.parse 1735689600000
       (DateString "2024-12-31T23:59:59Z") None = "Available now"
  /\ formatCountdownShort Iso.parse 1735689600000
       (DateString "2024-12-31T23:59:59Z") None = "0m"
  /\ formatCountdownCompact Iso.parse 1735689600000
       (DateString "2024-12-31T23:59:59Z") None = "0:00:00".
Proof.
  assert (H : getTime Iso.parse (DateString "2024-12-31T23:59:59Z")
              = Num 1735689599000) by reflexivity.
  assert (L : 1735689599000 <= 1735689600000) by lia.
  destruct (formatters_expired Iso.parse 1735689600000 1735689599000
              (DateString "2024-12-31T23:59:59Z") None H L)
    as (_ & HF & HS & HC).
  split; [exact H | ]. split; [exact L | ].
  split; [exact (HF eq_refl eq_refl) | ]. split; [exact HS | exact HC].
Defined.

Lemma formatters_examples_witness :
  getTime Iso.parse (DateString "2024-12-31T23:59:59Z")
  = Num (1735669799000 + (5 * 3600 + 30 * 60 + 0) * 1000)
  /\ getTime Iso.parse (DateString "2024-12-31T18:34:09Z")
     = Num (1735669799000 + (4 * 60 + 10) * 1000)
  /\ formatCountdown Iso.parse 1735669799000
       (DateString "2024-12-31T23:59:59Z") None = "5 hours 30 minutes"
  /\ formatCountdownShort Iso.parse 1735669799000
       (DateString "2024-12-31T23:59:59Z") None = "5h 30m"
  /\ formatCountdownCompact Iso.parse 1735669799000
       (DateString "2024-12-31T23:59:59Z") None = "05:30:00"
  /\ formatCountdownShort Iso.parse 1735669799000
       (DateString "2024-12-31T18:34:09Z") None = "4m 10s".
Proof.
  assert (H1 : getTime Iso.parse (DateString "2024-12-31T23:59:59Z")
               = Num (1735669799000 + (5 * 3600 + 30 * 60 + 0) * 1000))
    by reflexivity.
  assert (H2 : getTime Iso.parse (DateString "2024-12-31T18:34:09Z")
               = Num (1735669799000 + (4 * 60 + 10) * 1000))
    by reflexivity.
  split; [exact H1 | ]. split; [exact H2 | ].
  exact (formatters_examples Iso.parse 1735669799000 _ _ H1 H2).
Defined.

Lemma unparseable_target_witness :
  Iso.parse "not a date" = NaN
  /\ formatCountdown Iso.parse 1735689600000 (DateString "not a date") None
     = "Available now"
  /\ formatCountdownShort Iso.parse 1735689600000
       (DateString "not a date") None = "0m"
  /\ formatCountdownCompact Iso.parse 1735689600000
       (DateString "not a date") None = "NaN:NaN:NaN".
Proof.
  assert (H : Iso.parse "not a date" = NaN) by reflexivity.
  split; [exact H | ].
  exact (proj2 (unparseable_target Iso.parse 1735689600000
                  "not a date" None None H)).
Defined.

(** C8, as the specification words it, fails: on the text [not a date]
    the calculator's result is neither expired nor zero, and the compact
    rendering is not the expired [0:00:00]. *)
Lemma unparseable_target_not_expired :
  Iso.parse "not a date" = NaN
  /\ isExpired (calculateTimeRemaining Iso.parse 1735689600000
                  (DateString "not a date") None) <> true
  /\ totalSeconds (calculateTimeRemaining Iso.parse 1735689600000
                     (DateString "not a date") None) <> Num 0
  /\ formatCountdownCompact Iso.parse 1735689600000
       (DateString "not a date") None <> "0:00:00".
Proof. repeat split; discriminate. Qed.

(** A block of [formatCountdown] pushes a part exactly when its outer test
    holds and the count is positive: a zero count is never rendered, the
    outer test notwithstanding. *)
Lemma unitPart_pushes_iff (shown : bool) (count : number)
  (t : option Translate) (oneKey manyKey : option string)
  (oneText manyText : string) :
  unitPart shown count t oneKey manyKey oneText manyText <> []
  <-> shown = true /\ JS.gt count (Num 0) = true.
Proof.
  unfold unitPart. destruct shown, count as [z | ]; simpl;
    try (split; [intros H; now elim H | intros [? ?]; discriminate]).
  destruct (z =? 1) eqn:E1.
  - apply Z.eqb_eq in E1. subst z. split; [now split | discriminate].
  - destruct (0 <? z); split; try discriminate; try tauto.
    intros [_ ?]; discriminate.
Qed.

(** C3 at an input where the code and the claim part.  With [showZeros]
    set and 90 seconds left, [hours] is 0 and the hours block pushes
    nothing: the text is [1 minute 30 seconds], with no hours part.  With
    60 seconds left, neither an hours part nor a seconds part is
    rendered. *)
Theorem formatCountdown_showZeros_zero_count :
  let now := 1735689600000 in
  let showingZeros :=
    Some (mkFormatOptions None None (Some true) None None None None None) in
  let in90s := DateObject (Num (now + 90 * 1000)) in
  let in60s := DateObject (Num (now + 60 * 1000)) in
  let r := calculateTimeRemaining Iso.parse now in90s None in
  isExpired r = false /\ hours r = Num 0
  /\ hoursPart true None None r = []
  /\ formatCountdown Iso.parse now in90s showingZeros
     = "1 minute 30 seconds"
  /\ formatCountdown Iso.parse now in60s showingZeros = "1 minute".
Proof. repeat split. Qed.

(** ** The hook *)

Section HookFacts.

Variable Date_parse : string -> number.
Variable World : Type.

Lemma updateCountdown_keeps (options : option (UseCountdownOptions World))
  (now : Z) (st : HookState) (w : World) :
  let st' := fst (updateCountdown Date_parse World options now st w) in
  currentTarget st' = currentTarget st /\ isActive st' = isActive st.
Proof.
  unfold updateCountdown.
  destruct (currentTarget st) as [d | ] eqn:Hd; [ | now split].
  destruct (truthyTarget d); [ | now split].
  destruct (onExpire World (default options (noHookOptions World)));
    [ | now split].
  destruct (isExpired _); now split.
Qed.

(** With no target the timer is never installed: firings change nothing. *)
Lemma ticks_without_target (options : option (UseCountdownOptions World))
  (nows : list Z) (st : HookState) (w : World) :
  truthyCurrent (currentTarget st) = false ->
  ticks Date_parse World options nows (st, w) = (st, w).
Proof.
  intros H. induction nows as [ | now later IH]; simpl; [reflexivity | ].
  rewrite H, andb_false_r. exact IH.
Qed.

(** C10.  Called with [null] or with [undefined], [useCountdown] returns
    the time remaining [{hours: 0, minutes: 0, seconds: 0, totalSeconds: 0,
    isExpired: true}] and the empty string for [formatted], [short] and
    [compact], none of which is the expired text of its formatter; the
    effects of the first render and the timer leave that state as it is
    and call nothing. *)
Theorem useCountdown_without_target (now nowF nowS nowC : Z)
  (options : option (UseCountdownOptions World)) :
  let published :=
    {| Return.timeRemaining :=
         {| hours := Num 0; minutes := Num 0; seconds := Num 0;
            totalSeconds := Num 0; isExpired := true |};
       Return.formatted := "";
       Return.short := "";
       Return.compact := "";
       Return.isActive :=
         default (autoStart World (default options (noHookOptions World)))
           true |} in
  useCountdown Date_parse World now nowF nowS nowC Null options = published
  /\ useCountdown Date_parse World now nowF nowS nowC Undefined options
     = published
  /\ Return.formatted published <> "Available now"
  /\ Return.short published <> "0m"
  /\ Return.compact published <> "0:00:00"
  /\ (forall (now' : Z) (nows : list Z) (w : World),
        let st := initialState Date_parse World now Null options in
        ticks Date_parse World options nows
          (mount Date_parse World options now' Null (st, w))
        = (st, w))
  /\ (forall (now' : Z) (nows : list Z) (w : World),
        let st := initialState Date_parse World now Undefined options in
        ticks Date_parse World options nows
          (mount Date_parse World options now' Undefined (st, w))
        = (st, w)).
Proof.
  intros published. repeat split; try discriminate.
  all: intros now' nows w;
    unfold mount, tick, updateCountdown, initialState, setTimeRemaining;
    cbn [orNull currentTarget isActive timeRemaining truthyCurrent];
    rewrite andb_false_r; now apply ticks_without_target.
Qed.

(** C5.  A firing of the timer of an active countdown recomputes the time
    remaining from the current target at the clock reading of the firing,
    stores it, and calls [onExpire], when there is one, if that time
    remaining is expired.  Nothing records that the callback was called:
    over any run of firings at which the target instant is reached, the
    callback is applied once per firing. *)
Theorem tick_recomputes_and_expires
  (options : option (UseCountdownOptions World))
  (now : Z) (st : HookState) (w : World) (d : TargetDate) :
  isActive st = true -> currentTarget st = Some d -> truthyTarget d = true ->
  let o := default options (noHookOptions World) in
  let remaining :=
    calculateTimeRemaining Date_parse now d
      (Some (timezone (formatOptions World o))) in
  tick Date_parse World options now (st, w)
  = (setTimeRemaining remaining st,
     match onExpire World o with
     | Some callback => if isExpired remaining then callback w else w
     | None => w
     end)
  /\ (forall (callback : World -> World) (T : Z) (nows : list Z),
        onExpire World o = Some callback ->
        getTime Date_parse d = Num T ->
        Forall (fun now' => T - now' < 1000) nows ->
        snd (ticks Date_parse World options nows (st, w))
        = Nat.iter (List.length nows) callback w).
Proof.
  intros Ha Hc Ht o remaining. split.
  - unfold tick, updateCountdown. rewrite Ha, Hc. cbn [truthyCurrent].
    rewrite Ht. cbn [andb]. fold o. fold remaining.
    destruct (onExpire World o); [ | reflexivity].
    destruct (isExpired remaining); reflexivity.
  - intros callback T nows Hcb HT Hall. revert st w Ha Hc.
    induction Hall as [ | now' later Hnow _ IH]; intros st w Ha Hc;
      [reflexivity | ].
    cbn [ticks List.length]. rewrite Nat.iter_succ_r.
    pose proof (updateCountdown_keeps options now' st w) as [Kc Ka].
    assert (Htick : tick Date_parse World options now' (st, w)
                    = (fst (updateCountdown Date_parse World options
                              now' st w), callback w)).
    { unfold tick. rewrite Ha, Hc. cbn [truthyCurrent]. rewrite Ht.
      cbn [andb]. unfold updateCountdown. rewrite Hc, Ht. fold o.
      rewrite Hcb.
      rewrite (calc_instant Date_parse now' T d _ HT). cbn [isExpired].
      assert (E : (wholeSeconds now' T <=? 0) = true).
      { apply Z.leb_le.
        now rewrite (proj2 (wholeSeconds_zero_iff now' T) Hnow). }
      rewrite E. reflexivity. }
    rewrite Htick. apply IH; congruence.
Qed.

End HookFacts.

Lemma tick_recomputes_and_expires_witness :
  let st := initialState Iso.parse nat 1735689590000
              (Target (DateString "2024-12-31T23:59:59Z"))
              (Some (mkUseCountdownOptions nat None None (Some S)
                       noOptions)) in
  isActive st = true
  /\ currentTarget st = Some (DateString "2024-12-31T23:59:59Z")
  /\ truthyTarget (DateString "2024-12-31T23:59:59Z") = true
  /\ snd (ticks Iso.parse nat
            (Some (mkUseCountdownOptions nat None None (Some S) noOptions))
            [1735689599000; 1735689600000; 1735689601000] (st, O))
     = 3%nat.
Proof.
  intros st.
  assert (Ha : isActive st = true) by reflexivity.
  assert (Hc : currentTarget st = Some (DateString "2024-12-31T23:59:59Z"))
    by reflexivity.
  assert (Ht : truthyTarget (DateString "2024-12-31T23:59:59Z") = true)
    by reflexivity.
  split; [exact Ha | ]. split; [exact Hc | ]. split; [exact Ht | ].
  destruct (tick_recomputes_and_expires Iso.parse nat
              (Some (mkUseCountdownOptions nat None None (Some S)
                       noOptions))
              1735689599000 st O _ Ha Hc Ht) as [_ Hrun].
  apply (Hrun S 1735689599000
           [1735689599000; 1735689600000; 1735689601000]).
  - reflexivity.
  - reflexivity.
  - repeat constructor.
Defined.

(** ** The shape of the compact rendering *)

Module CompactShape.
Import Re ReFacts.

Lemma chars_app (a b : string) :
  list_ascii_of_string (a ++ b)
  = (list_ascii_of_string a ++ list_ascii_of_string b)%list.
Proof. induction a as [ | c a IH]; simpl; [reflexivity | now rewrite IH]. Qed.

Lemma uint_allDigits (d : uint) : allDigits (NilEmpty.string_of_uint d).
Proof.
  unfold allDigits. induction d; simpl; constructor; auto.
Qed.

(** The text of a non-negative integer: one digit at least, digits only. *)
Lemma toString_digits (z : Z) :
  0 <= z -> allDigits (JS.toString (Num z)) /\ JS.toString (Num z) <> "".
Proof.
  intros Hz. unfold JS.toString.
  destruct z as [ | p | p]; [ | | lia].
  - split; [repeat constructor | discriminate].
  - cbn [Z.to_int NilZero.string_of_int].
    generalize (Pos.to_uint p). intros d. split.
    + destruct d; try apply uint_allDigits. repeat constructor.
    + destruct d; discriminate.
Qed.

(** Padding to width 2 keeps the digits and leaves two characters at
    least. *)
Lemma padStart_digits (s : string) :
  allDigits s -> allDigits (JS.padStart 2 "0" s)
                 /\ (2 <= String.length (JS.padStart 2 "0" s))%nat.
Proof.
  intros H. destruct s as [ | a [ | b rest]].
  - split; [repeat constructor | simpl; lia].
  - split; [ | simpl; lia]. inversion H; subst. repeat constructor; auto.
  - split; [exact H | simpl; lia].
Qed.

Lemma pad2_digits (z : Z) :
  0 <= z -> allDigits (pad2 (Num z))
            /\ (2 <= String.length (pad2 (Num z)))%nat.
Proof.
  intros Hz. apply padStart_digits. now apply toString_digits.
Qed.

(** Below 60 the padded text has exactly two digits. *)
Lemma pad2_two_digits (z : Z) :
  0 <= z <= 59 ->
  matches (Seq digit digit) (list_ascii_of_string (pad2 (Num z))).
Proof.
  intros Hz. apply matchb_spec.
  assert (Hall : forallb (fun k => matchb (Seq digit digit)
                            (list_ascii_of_string (pad2 (Num (Z.of_nat k)))))
                   (seq 0 60) = true) by (vm_compute; reflexivity).
  rewrite forallb_forall in Hall.
  specialize (Hall (Z.to_nat z)). rewrite Z2Nat.id in Hall by lia.
  apply Hall. apply in_seq. lia.
Qed.

Lemma star_digits (w : list ascii) :
  Forall (fun c => isDigit c = true) w -> matches (Star digit) w.
Proof.
  induction 1 as [ | c w Hc _ IH]; [constructor | ].
  change (c :: w) with ([c] ++ w)%list.
  apply MStarApp; [now constructor | exact IH].
Qed.

(** [\d+] on a string of digits that is not empty. *)
Lemma plus_digits (s : string) :
  allDigits s -> s <> "" -> matches (plus digit) (list_ascii_of_string s).
Proof.
  intros H Hne. destruct s as [ | c s]; [congruence | ].
  unfold allDigits in H. simpl in *. inversion H; subst.
  change (c :: list_ascii_of_string s)
    with ([c] ++ list_ascii_of_string s)%list.
  constructor; [now constructor | now apply star_digits].
Qed.

Lemma length_nonempty (s : string) : (2 <= String.length s)%nat -> s <> "".
Proof. destruct s; simpl; [lia | discriminate]. Qed.

(** The colon the expression asks for is in every word it matches. *)
Lemma compact_has_colon (w : list ascii) :
  matches compact w -> In ":"%char w.
Proof.
  unfold compact. intros H. inv H.
  match goal with H : matches (Seq (chr _) _) _ |- _ => inv H end.
  match goal with H : matches (chr _) _ |- _ => inv H end.
  match goal with H : Ascii.eqb _ _ = true |- _ =>
    apply Ascii.eqb_eq in H; subst end.
  apply in_or_app. right. now left.
Qed.

Lemma digits_no_colon (s : string) :
  allDigits s -> ~ In ":"%char (list_ascii_of_string s).
Proof.
  unfold allDigits. rewrite Forall_forall. intros H Hin.
  specialize (H _ Hin). discriminate.
Qed.

(** [digits : two digits], then maybe [: two digits]. *)
Lemma compact_fields (lead mid : string) (tail : option string) :
  allDigits lead -> lead <> "" ->
  matches (Seq digit digit) (list_ascii_of_string mid) ->
  (forall x, tail = Some x ->
             matches (Seq digit digit) (list_ascii_of_string x)) ->
  matches compact
    (list_ascii_of_string
       (lead ++ ":" ++ mid
        ++ match tail with Some x => ":" ++ x | None => "" end)).
Proof.
  intros Hlead Hne Hmid Htail. unfold compact. rewrite !chars_app.
  constructor; [now apply plus_digits | ].
  change (list_ascii_of_string ":") with [":"%char].
  constructor; [constructor; apply Ascii.eqb_refl | ].
  constructor; [exact Hmid | ].
  destruct tail as [x | ].
  - apply MAltL. rewrite chars_app.
    change (list_ascii_of_string ":") with [":"%char].
    constructor; [constructor; apply Ascii.eqb_refl | now apply Htail].
  - apply MAltR. constructor.
Qed.

Lemma append_empty (s : string) : s ++ "" = s.
Proof. induction s as [ | c s IH]; simpl; [reflexivity | now rewrite IH]. Qed.

End CompactShape.

Section Compact.
Import Re CompactShape.

Variable Date_parse : string -> number.

(** C4, as the code has it.  For a target instant that is not expired the
    compact rendering is made of the zero-padded fields: hours, minutes
    and, when shown, seconds if hours are shown; otherwise the total
    minutes [hours*60 + minutes] and, when shown, seconds.  It matches
    [^\d+:\d{2}(:\d{2})?$] whenever hours or seconds are shown; with both
    switched off it is the total minutes alone, two digits or more and no
    colon, which the expression does not match. *)
Theorem formatCountdownCompact_shape (now T : Z) (targetDate : TargetDate)
  (options : option FormatOptions) :
  getTime Date_parse targetDate = Num T ->
  isExpired (calculateTimeRemaining Date_parse now targetDate None) = false ->
  let ts := wholeSeconds now T in
  let h := Num (ts / 3600) in
  let m := Num (ts mod 3600 / 60) in
  let s := Num (ts mod 60) in
  let totalMinutes := Num (ts / 3600 * 60 + ts mod 3600 / 60) in
  let out := formatCountdownCompact Date_parse now targetDate options in
  match default (field showHours options) true,
        default (field showSeconds options) true with
  | true, true =>
      out = pad2 h ++ ":" ++ pad2 m ++ ":" ++ pad2 s
      /\ matches compact (list_ascii_of_string out)
  | true, false =>
      out = pad2 h ++ ":" ++ pad2 m
      /\ matches compact (list_ascii_of_string out)
  | false, true =>
      out = pad2 totalMinutes ++ ":" ++ pad2 s
      /\ matches compact (list_ascii_of_string out)
  | false, false =>
      out = pad2 totalMinutes
      /\ allDigits out /\ (2 <= String.length out)%nat
      /\ ~ matches compact (list_ascii_of_string out)
  end.
Proof.
  intros HT Hlive ts h m s totalMinutes out.
  subst out. unfold formatCountdownCompact. rewrite Hlive.
  rewrite (calc_instant Date_parse now T _ _ HT). fold ts.
  pose proof (wholeSeconds_nonneg now T) as Hts. fold ts in Hts.
  unfold compactFields. cbn [hours minutes seconds JS.mul JS.add].
  rewrite !Z.rem_mod_nonneg by lia. fold h m s totalMinutes.
  assert (Hh : 0 <= ts / 3600) by (apply Z.div_pos; lia).
  assert (Hm : 0 <= ts mod 3600 / 60 <= 59).
  { pose proof (Z.mod_pos_bound ts 3600 ltac:(lia)).
    split; [apply Z.div_pos; lia | ].
    apply Z.lt_succ_r. apply Z.div_lt_upper_bound; lia. }
  assert (Hs : 0 <= ts mod 60 <= 59)
    by (pose proof (Z.mod_pos_bound ts 60 ltac:(lia)); lia).
  destruct (pad2_digits (ts / 3600) Hh) as [Dh Lh].
  destruct (pad2_digits (ts / 3600 * 60 + ts mod 3600 / 60) ltac:(lia))
    as [Dt Lt].
  pose proof (pad2_two_digits _ Hm) as Mm.
  pose proof (pad2_two_digits _ Hs) as Ms.
  fold h in Dh, Lh. fold m in Mm. fold s in Ms.
  fold totalMinutes in Dt, Lt.
  destruct (default (field showHours options) true),
           (default (field showSeconds options) true).
  - split; [reflexivity | ].
    apply (compact_fields (pad2 h) (pad2 m) (Some (pad2 s)));
      auto using length_nonempty.
    now intros x [= <-].
  - split; [reflexivity | ].
    rewrite <- (append_empty (pad2 m)).
    apply (compact_fields (pad2 h) (pad2 m) None);
      auto using length_nonempty.
    discriminate.
  - split; [reflexivity | ].
    (* the seconds take the place of the two-digit field *)
    rewrite <- (append_empty (pad2 s)).
    apply (compact_fields (pad2 totalMinutes) (pad2 s) None);
      auto using length_nonempty.
    discriminate.
  - repeat split; auto.
    intros Hmatch. apply compact_has_colon in Hmatch.
    now apply (digits_no_colon _ Dt).
Qed.

End Compact.

Lemma formatCountdownCompact_shape_witness :
  getTime Iso.parse (DateString "2024-12-31T23:59:59Z") = Num 1735689599000
  /\ isExpired (calculateTimeRemaining Iso.parse 1735669799000
                  (DateString "2024-12-31T23:59:59Z") None) = false
  /\ formatCountdownCompact Iso.parse 1735669799000
       (DateString "2024-12-31T23:59:59Z") None = "05:30:00"
  /\ Re.matches Re.compact
       (list_ascii_of_string
          (formatCountdownCompact Iso.parse 1735669799000
             (DateString "2024-12-31T23:59:59Z") None)).
Proof.
  assert (H : getTime Iso.parse (DateString "2024-12-31T23:59:59Z")
              = Num 1735689599000) by reflexivity.
  assert (L : isExpired (calculateTimeRemaining Iso.parse 1735669799000
                           (DateString "2024-12-31T23:59:59Z") None)
              = false) by reflexivity.
  split; [exact H | ]. split; [exact L | ].
  exact (formatCountdownCompact_shape Iso.parse 1735669799000
           1735689599000 (DateString "2024-12-31T23:59:59Z") None H L).
Defined.

(** C4, as the specification words it, fails with both switches off: 90
    seconds ahead the rendering is [01], which the expression rejects. *)
Lemma formatCountdownCompact_minutes_only :
  let now := 1735689600000 in
  let in90s := DateObject (Num (now + 90 * 1000)) in
  let options :=
    Some (mkFormatOptions None None None None None None
            (Some false) (Some false)) in
  isExpired (calculateTimeRemaining Iso.parse now in90s None) = false
  /\ formatCountdownCompact Iso.parse now in90s options = "01"
  /\ Re.test Re.compact (formatCountdownCompact Iso.parse now in90s options)
     = false
  /\ ~ Re.matches Re.compact
         (list_ascii_of_string
            (formatCountdownCompact Iso.parse now in90s options)).
Proof.
  repeat split.
  intros H. apply ReFacts.matchb_spec in H. discriminate.
Qed.

(** * Further properties of the code *)

(** ** The calculator as the clock advances *)

Section CalculatorInTime.

Variable Date_parse : string -> number.

(** As the clock advances towards and past a target instant, the seconds
    reported never go up, and an expired countdown stays expired. *)
Theorem totalSeconds_never_increases (now now' T : Z)
  (targetDate : TargetDate) (options : option (option string)) :
  getTime Date_parse targetDate = Num T -> now <= now' ->
  let r := calculateTimeRemaining Date_parse now targetDate options in
  let r' := calculateTimeRemaining Date_parse now' targetDate options in
  exists ts ts',
    totalSeconds r = Num ts /\ totalSeconds r' = Num ts' /\ ts' <= ts
    /\ (isExpired r = true -> isExpired r' = true).
Proof.
  intros HT Hle r r'. subst r r'.
  rewrite !(calc_instant Date_parse _ T _ _ HT).
  cbn [totalSeconds isExpired].
  assert (Hmono : wholeSeconds now' T <= wholeSeconds now T).
  { unfold wholeSeconds. apply Z.div_le_mono; lia. }
  exists (wholeSeconds now T), (wholeSeconds now' T).
  repeat split; try assumption.
  rewrite !Z.leb_le. lia.
Qed.

(** [totalSeconds] counts the whole seconds left: the target lies at
    least that many seconds ahead and less than one second more; and [k]
    seconds later, the target not yet passed, it is exactly [k] less. *)
Theorem totalSeconds_counts_down (now T k : Z)
  (targetDate : TargetDate) (options : option (option string)) :
  getTime Date_parse targetDate = Num T ->
  0 <= k -> now + k * 1000 <= T ->
  exists ts,
    totalSeconds (calculateTimeRemaining Date_parse now targetDate options)
    = Num ts
    /\ ts * 1000 <= T - now < ts * 1000 + 1000
    /\ totalSeconds
         (calculateTimeRemaining Date_parse (now + k * 1000) targetDate
            options)
       = Num (ts - k).
Proof.
  intros HT Hk Hahead.
  rewrite !(calc_instant Date_parse _ T _ _ HT). cbn [totalSeconds].
  exists (wholeSeconds now T). unfold wholeSeconds.
  rewrite !Z.max_r by lia.
  pose proof (Z.div_mod (T - now) 1000 ltac:(lia)) as Hdm.
  pose proof (Z.mod_pos_bound (T - now) 1000 ltac:(lia)) as Hb.
  repeat split; try lia.
  f_equal.
  replace (T - (now + k * 1000)) with (T - now + (- k) * 1000) by lia.
  rewrite Z.div_add by lia. lia.
Qed.

End CalculatorInTime.

Lemma totalSeconds_never_increases_witness :
  getTime Iso.parse (DateString "2024-12-31T23:59:59Z") = Num 1735689599000
  /\ 1735689590000 <= 1735689595500
  /\ exists ts ts',
       totalSeconds (calculateTimeRemaining Iso.parse 1735689590000
                       (DateString "2024-12-31T23:59:59Z") None) = Num ts
       /\ totalSeconds (calculateTimeRemaining Iso.parse 1735689595500
                          (DateString "2024-12-31T23:59:59Z") None)
          = Num ts'
       /\ ts' <= ts.
Proof.
  assert (H : getTime Iso.parse (DateString "2024-12-31T23:59:59Z")
              = Num 1735689599000) by reflexivity.
  assert (L : 1735689590000 <= 1735689595500) by lia.
  split; [exact H | ]. split; [exact L | ].
  destruct (totalSeconds_never_increases Iso.parse 1735689590000
              1735689595500 1735689599000 _ None H L)
    as (ts & ts' & H1 & H2 & H3 & _).
  exists ts, ts'. auto.
Defined.

Lemma totalSeconds_counts_down_witness :
  getTime Iso.parse (DateString "2024-12-31T23:59:59Z") = Num 1735689599000
  /\ 0 <= 7
  /\ 1735689590500 + 7 * 1000 <= 1735689599000
  /\ exists ts,
       totalSeconds (calculateTimeRemaining Iso.parse 1735689590500
                       (DateString "2024-12-31T23:59:59Z") None) = Num ts
       /\ totalSeconds (calculateTimeRemaining Iso.parse
                          (1735689590500 + 7 * 1000)
                          (DateString "2024-12-31T23:59:59Z") None)
          = Num (ts - 7).
Proof.
  assert (H : getTime Iso.parse (DateString "2024-12-31T23:59:59Z")
              = Num 1735689599000) by reflexivity.
  assert (K : 0 <= 7) by lia.
  assert (L : 1735689590500 + 7 * 1000 <= 1735689599000) by lia.
  split; [exact H | ]. split; [exact K | ]. split; [exact L | ].
  destruct (totalSeconds_counts_down Iso.parse 1735689590500
              1735689599000 7 _ None H K L) as (ts & H1 & _ & H3).
  exists ts. auto.
Defined.

(** ** What the verbose and short renderings show *)

Section Renderings.

Variable Date_parse : string -> number.

(** The fields of the time remaining to an instant, as integers. *)
Lemma calc_fields (now T : Z) (targetDate : TargetDate)
  (options : option (option string)) :
  getTime Date_parse targetDate = Num T ->
  exists h m s,
    calculateTimeRemaining Date_parse now targetDate options
    = {| hours := Num h; minutes := Num m; seconds := Num s;
         totalSeconds := Num (wholeSeconds now T);
         isExpired := wholeSeconds now T <=? 0 |}
    /\ 0 <= h /\ 0 <= m <= 59 /\ 0 <= s <= 59
    /\ wholeSeconds now T = h * 3600 + m * 60 + s.
Proof.
  intros HT. rewrite (calc_instant Date_parse now T _ _ HT).
  pose proof (wholeSeconds_nonneg now T) as Hge.
  set (ts := wholeSeconds now T) in *. cbv zeta.
  rewrite !Z.rem_mod_nonneg by lia.
  exists (ts / 3600), (ts mod 3600 / 60), (ts mod 60).
  pose proof (Z.div_mod ts 3600 ltac:(lia)) as H1.
  pose proof (Z.div_mod (ts mod 3600) 60 ltac:(lia)) as H2.
  pose proof (Z.mod_pos_bound ts 3600 ltac:(lia)) as B1.
  pose proof (Z.mod_pos_bound ts 60 ltac:(lia)) as B2.
  pose proof (Z.mod_pos_bound (ts mod 3600) 60 ltac:(lia)) as B3.
  assert (H3 : (ts mod 3600) mod 60 = ts mod 60).
  { apply (Z.mod_unique ts 60 (ts / 3600 * 60 + ts mod 3600 / 60));
      [left | ]; lia. }
  assert (0 <= ts / 3600) by (apply Z.div_pos; lia).
  assert (0 <= ts mod 3600 / 60) by (apply Z.div_pos; lia).
  repeat split; try lia.
Qed.

(** The second disjunct of a block's outer test changes nothing. *)
Lemma unitPart_outer (b : bool) (count : number) (t : option Translate)
  (oneKey manyKey : option string) (oneText manyText : string) :
  unitPart (JS.gt count (Num 0) || b) count t oneKey manyKey oneText manyText
  = unitPart (JS.gt count (Num 0)) count t oneKey manyKey oneText manyText.
Proof.
  destruct (JS.gt count (Num 0)) eqn:Hgt; [reflexivity | ].
  destruct b; [ | reflexivity]. unfold unitPart. rewrite Hgt.
  destruct count as [z | ]; [ | reflexivity]. simpl in *.
  destruct (z =? 1) eqn:E; [ | reflexivity].
  apply Z.eqb_eq in E. subst z. discriminate.
Qed.

Lemma countdownParts_showZeros (b : option bool) (o : FormatOptions)
  (r : TimeRemaining) :
  countdownParts (Some (withShowZeros b o)) r
  = countdownParts (Some (withShowZeros None o)) r.
Proof.
  unfold countdownParts, hoursPart, minutesPart, secondsPart.
  cbn [field withShowZeros showZeros showSecondsThreshold t keys default].
  rewrite !unitPart_outer.
  destruct (JS.eq (hours r) (Num 0) && JS.lt (minutes r) _);
    rewrite ?(unitPart_outer false); reflexivity.
Qed.

(** Whatever [showZeros] is set to, [formatCountdown] returns the same
    text: for every target, clock reading and other options. *)
Theorem formatCountdown_ignores_showZeros (now : Z)
  (targetDate : TargetDate) (o : FormatOptions) (b1 b2 : option bool) :
  formatCountdown Date_parse now targetDate (Some (withShowZeros b1 o))
  = formatCountdown Date_parse now targetDate (Some (withShowZeros b2 o)).
Proof.
  unfold formatCountdown.
  rewrite (countdownParts_showZeros b1), (countdownParts_showZeros b2).
  reflexivity.
Qed.

Lemma wholeSeconds_live (now T : Z) :
  1000 <= T - now -> 1 <= wholeSeconds now T.
Proof.
  intros H. unfold wholeSeconds. rewrite Z.max_r by lia.
  apply Z.div_le_lower_bound; lia.
Qed.

Lemma app_not_nil {A : Type} (l1 l2 l3 : list A) :
  l1 <> [] \/ l2 <> [] \/ l3 <> [] -> (l1 ++ l2 ++ l3)%list <> [].
Proof.
  intros H E. apply app_eq_nil in E as [E1 E]. apply app_eq_nil in E as [E2 E3].
  tauto.
Qed.

Lemma length_not_nil {A : Type} (l : list A) :
  l <> [] ->
  (List.length l =? 0)%nat = false /\ (0 <? List.length l)%nat = true.
Proof. destruct l; [congruence | now split]. Qed.

(** With a seconds threshold above zero (the default 5 is), a target
    instant that is not expired always gets a part: [formatCountdown] and
    [formatCountdownShort] return their parts joined by the separator,
    never the fallback for an empty list. *)
Theorem formatters_render_a_part (now T : Z) (targetDate : TargetDate)
  (options : option FormatOptions) :
  getTime Date_parse targetDate = Num T -> 1000 <= T - now ->
  JS.lt (Num 0) (default (field showSecondsThreshold options) (Num 5))
  = true ->
  let r := calculateTimeRemaining Date_parse now targetDate
             (Some (field timezone options)) in
  let threshold := default (field showSecondsThreshold options) (Num 5) in
  let separator := default (field separator options) " " in
  countdownParts options r <> []
  /\ formatCountdown Date_parse now targetDate options
     = JS.join separator (countdownParts options r)
  /\ shortParts threshold r <> []
  /\ formatCountdownShort Date_parse now targetDate options
     = JS.join separator (shortParts threshold r).
Proof.
  intros HT Hlive Hth r threshold sep. fold threshold in Hth.
  assert (Hparts : countdownParts options r <> []
                   /\ shortParts threshold r <> []).
  { subst r.
    destruct (calc_fields now T targetDate (Some (field timezone options))
                HT) as (h & m & s & -> & Hh & Hm & Hs & Hsum).
    pose proof (wholeSeconds_live now T Hlive) as Hts.
    unfold countdownParts, shortParts, hoursPart, minutesPart, secondsPart.
    cbn [hours minutes seconds]. fold threshold.
    split.
    - apply app_not_nil.
      destruct (Z.ltb_spec 0 h) as [Hh1 | Hh0].
      { left. apply unitPart_pushes_iff. simpl.
        now rewrite (proj2 (Z.ltb_lt 0 h) Hh1). }
      assert (h = 0) by lia. subst h.
      destruct (Z.ltb_spec 0 m) as [Hm1 | Hm0].
      { right. left. apply unitPart_pushes_iff. simpl.
        now rewrite (proj2 (Z.ltb_lt 0 m) Hm1). }
      assert (m = 0) by lia. subst m.
      right. right. cbn [JS.eq Z.eqb andb]. rewrite Hth.
      apply unitPart_pushes_iff. simpl.
      assert (E : (0 <? s) = true) by (apply Z.ltb_lt; lia).
      now rewrite E.
    - apply app_not_nil. cbn [JS.gt JS.eq].
      destruct (Z.ltb_spec 0 h) as [Hh1 | Hh0]; [left; discriminate | ].
      assert (h = 0) by lia. subst h.
      destruct (Z.ltb_spec 0 m) as [Hm1 | Hm0];
        [right; left; discriminate | ].
      assert (m = 0) by lia. subst m.
      right. right. cbn [Z.eqb andb]. rewrite Hth.
      assert (E : (0 <? s) = true) by (apply Z.ltb_lt; lia).
      rewrite E. discriminate. }
  destruct Hparts as [Hc Hs].
  destruct (length_not_nil _ Hc) as [Lc _].
  destruct (length_not_nil _ Hs) as [_ Ls].
  assert (Hexp : isExpired r = false).
  { subst r. rewrite (calc_instant Date_parse now T _ _ HT).
    cbn [isExpired]. apply Z.leb_gt.
    pose proof (wholeSeconds_live now T Hlive). lia. }
  unfold formatCountdown, formatCountdownShort.
  fold r. fold threshold. fold sep. rewrite Hexp, Lc, Ls.
  repeat split; assumption.
Qed.

(** With a threshold that zero is not below (zero, a negative number,
    not-a-number), a target less than a minute ahead gets no part though
    it is not expired: [formatCountdown] returns the available-now message
    and [formatCountdownShort] the text [0m], as they do on expiry. *)
Theorem formatters_fallback_before_expiry (now T : Z)
  (targetDate : TargetDate) (options : option FormatOptions) :
  getTime Date_parse targetDate = Num T -> 1000 <= T - now < 60000 ->
  JS.lt (Num 0) (default (field showSecondsThreshold options) (Num 5))
  = false ->
  isExpired (calculateTimeRemaining Date_parse now targetDate
               (Some (field timezone options))) = false
  /\ formatCountdown Date_parse now targetDate options
     = availableNowMessage (field t options) (field keys options)
  /\ formatCountdownShort Date_parse now targetDate options = "0m".
Proof.
  intros HT [Hlo Hhi] Hth.
  pose proof (wholeSeconds_live now T Hlo) as Hts.
  assert (Hts' : wholeSeconds now T <= 59).
  { unfold wholeSeconds. rewrite Z.max_r by lia.
    apply Z.lt_succ_r. apply Z.div_lt_upper_bound; lia. }
  unfold formatCountdown, formatCountdownShort.
  destruct (calc_fields now T targetDate (Some (field timezone options)) HT)
    as (h & m & s & -> & Hh & Hm & Hs & Hsum).
  assert (h = 0) by lia. assert (m = 0) by lia. subst h m.
  assert (Hexp : (wholeSeconds now T <=? 0) = false)
    by (apply Z.leb_gt; lia).
  cbn [isExpired]. rewrite Hexp.
  unfold countdownParts, shortParts, hoursPart, minutesPart, secondsPart.
  cbn [hours minutes seconds JS.eq JS.gt Z.eqb Z.ltb Z.compare andb].
  rewrite Hth.
  destruct (default (field showZeros options) false); repeat split.
Qed.

(** An hour or more ahead the seconds are never shown, whatever the
    threshold: the short rendering is the hours token, followed by the
    minutes token when the minutes are not zero. *)
Theorem formatCountdownShort_from_an_hour (now T : Z)
  (targetDate : TargetDate) (options : option FormatOptions) :
  getTime Date_parse targetDate = Num T -> 3600000 <= T - now ->
  let r := calculateTimeRemaining Date_parse now targetDate
             (Some (field timezone options)) in
  let separator := default (field separator options) " " in
  formatCountdownShort Date_parse now targetDate options
  = JS.join separator
      ((JS.toString (hours r) ++ "h")
       :: (if JS.eq (minutes r) (Num 0) then []
           else [JS.toString (minutes r) ++ "m"])).
Proof.
  intros HT Hlive r sep. subst r. unfold formatCountdownShort.
  destruct (calc_fields now T targetDate (Some (field timezone options)) HT)
    as (h & m & s & -> & Hh & Hm & Hs & Hsum).
  assert (Hts : 3600 <= wholeSeconds now T).
  { unfold wholeSeconds. rewrite Z.max_r by lia.
    apply Z.div_le_lower_bound; lia. }
  assert (Hexp : (wholeSeconds now T <=? 0) = false)
    by (apply Z.leb_gt; lia).
  cbn [isExpired hours minutes]. rewrite Hexp.
  unfold shortParts. cbn [hours minutes seconds JS.gt JS.eq].
  assert (H1 : (0 <? h) = true) by (apply Z.ltb_lt; lia).
  assert (H0 : (h =? 0) = false) by (apply Z.eqb_neq; lia).
  rewrite H1, H0. cbn [andb]. fold sep.
  destruct (Z.eqb_spec m 0) as [-> | Hm0].
  - reflexivity.
  - assert (Hm1 : (0 <? m) = true) by (apply Z.ltb_lt; lia).
    rewrite Hm1. reflexivity.
Qed.

End Renderings.

Lemma formatters_render_a_part_witness :
  getTime Iso.parse (DateString "2024-12-31T23:59:59Z") = Num 1735689599000
  /\ 1000 <= 1735689599000 - 1735689594000
  /\ JS.lt (Num 0) (default (field showSecondsThreshold None) (Num 5)) = true
  /\ formatCountdown Iso.parse 1735689594000
       (DateString "2024-12-31T23:59:59Z") None
     = JS.join " "
         (countdownParts None
            (calculateTimeRemaining Iso.parse 1735689594000
               (DateString "2024-12-31T23:59:59Z") (Some None)))
  /\ formatCountdownShort Iso.parse 1735689594000
       (DateString "2024-12-31T23:59:59Z") None
     = JS.join " "
         (shortParts (Num 5)
            (calculateTimeRemaining Iso.parse 1735689594000
               (DateString "2024-12-31T23:59:59Z") (Some None))).
Proof.
  assert (H : getTime Iso.parse (DateString "2024-12-31T23:59:59Z")
              = Num 1735689599000) by reflexivity.
  assert (L : 1000 <= 1735689599000 - 1735689594000) by lia.
  assert (Th : JS.lt (Num 0)
                 (default (field showSecondsThreshold None) (Num 5)) = true)
    by reflexivity.
  destruct (formatters_render_a_part Iso.parse 1735689594000 1735689599000
              (DateString "2024-12-31T23:59:59Z") None H L Th)
    as (_ & HF & _ & HS).
  split; [exact H | ]. split; [exact L | ]. split; [exact Th | ].
  split; [exact HF | exact HS].
Defined.

Lemma formatters_fallback_before_expiry_witness :
  let options :=
    Some (mkFormatOptions (Some (Num 0)) None None None None None None None)
  in
  getTime Iso.parse (DateString "2024-12-31T23:59:59Z") = Num 1735689599000
  /\ 1000 <= 1735689599000 - 1735689569000 < 60000
  /\ JS.lt (Num 0) (default (field showSecondsThreshold options) (Num 5))
     = false
  /\ isExpired (calculateTimeRemaining Iso.parse 1735689569000
                  (DateString "2024-12-31T23:59:59Z") (Some None)) = false
  /\ formatCountdown Iso.parse 1735689569000
       (DateString "2024-12-31T23:59:59Z") options = "Available now"
  /\ formatCountdownShort Iso.parse 1735689569000
       (DateString "2024-12-31T23:59:59Z") options = "0m".
Proof.
  intros options.
  assert (H : getTime Iso.parse (DateString "2024-12-31T23:59:59Z")
              = Num 1735689599000) by reflexivity.
  assert (L : 1000 <= 1735689599000 - 1735689569000 < 60000) by lia.
  assert (Th : JS.lt (Num 0)
                 (default (field showSecondsThreshold options) (Num 5))
               = false) by reflexivity.
  split; [exact H | ]. split; [exact L | ]. split; [exact Th | ].
  exact (formatters_fallback_before_expiry Iso.parse 1735689569000
           1735689599000 (DateString "2024-12-31T23:59:59Z") options H L Th).
Defined.

Lemma formatCountdownShort_from_an_hour_witness :
  getTime Iso.parse (DateString "2024-12-31T23:59:59Z") = Num 1735689599000
  /\ 3600000 <= 1735689599000 - 1735682369000
  /\ formatCountdownShort Iso.parse 1735682369000
       (DateString "2024-12-31T23:59:59Z") None = "2h".
Proof.
  assert (H : getTime Iso.parse (DateString "2024-12-31T23:59:59Z")
              = Num 1735689599000) by reflexivity.
  assert (L : 3600000 <= 1735689599000 - 1735682369000) by lia.
  split; [exact H | ]. split; [exact L | ].
  exact (formatCountdownShort_from_an_hour Iso.parse 1735682369000
           1735689599000 (DateString "2024-12-31T23:59:59Z") None H L).
Defined.

(** ** The plural keys and their placeholder *)

Module Placeholder.

Lemma prefix_append (pat rest : string) :
  String.prefix pat (pat ++ rest) = true.
Proof.
  induction pat as [ | c pat IH]; simpl.
  - now destruct rest.
  - destruct (ascii_dec c c); [exact IH | congruence].
Qed.

Lemma drop_append (pat rest : string) :
  JS.drop (String.length pat) (pat ++ rest) = rest.
Proof.
  induction pat as [ | c pat IH]; simpl; [now destruct rest | exact IH].
Qed.

(** The first occurrence is the replaced one: text before it that is free
    of the pattern's first character stays, and so does all the text after
    it. *)
Lemma replace_first (c : ascii) (pat by_ before after : string) :
  existsb (Ascii.eqb c) (list_ascii_of_string before) = false ->
  JS.replace (String c pat) by_ (before ++ String c pat ++ after)
  = before ++ by_ ++ after.
Proof.
  intros Hfree. induction before as [ | a before IH].
  - change ("" ++ String c pat ++ after) with (String c pat ++ after).
    assert (E : JS.replace (String c pat) by_ (String c pat ++ after)
                = by_ ++ JS.drop (String.length (String c pat))
                                 (String c pat ++ after)).
    { cbn [JS.replace append].
      change (String c (pat ++ after)) with (String c pat ++ after).
      now rewrite prefix_append. }
    rewrite E, drop_append. reflexivity.
  - simpl in Hfree. apply orb_false_elim in Hfree as [Hne Hfree].
    apply Ascii.eqb_neq in Hne.
    cbn [append JS.replace String.prefix].
    destruct (ascii_dec c a) as [-> | _]; [congruence | ].
    f_equal. now apply IH.
Qed.

Lemma truthy_append (before : string) (c : ascii) (pat after : string) :
  JS.truthy (before ++ String c pat ++ after) = true.
Proof. now destruct before. Qed.

End Placeholder.

Section PluralKey.

Variable Date_parse : string -> number.

(** A plural key of the caller's, with no translation function: at a
    whole number of hours, two or more, the text is the key with its first
    [{{count}}] replaced by the count; what follows the placeholder is
    kept as it is, a second placeholder included. *)
Theorem formatCountdown_plural_key (now T h : Z) (targetDate : TargetDate)
  (o : FormatOptions) (ks : Keys.t) (before after : string) :
  getTime Date_parse targetDate = Num T ->
  2 <= h -> h * 3600000 <= T - now < h * 3600000 + 1000 ->
  t o = None -> keys o = Some ks ->
  Keys.hours ks = Some (before ++ "{{count}}" ++ after) ->
  existsb (Ascii.eqb "{") (list_ascii_of_string before) = false ->
  formatCountdown Date_parse now targetDate (Some o)
  = before ++ JS.toString (Num h) ++ after.
Proof.
  intros HT Hh2 [Hlo Hhi] Ht Hks Hkey Hfree.
  assert (Hts : wholeSeconds now T = h * 3600).
  { unfold wholeSeconds. rewrite Z.max_r by lia.
    symmetry. apply (Z.div_unique (T - now) 1000 (h * 3600)
                       (T - now - h * 3600000)); lia. }
  unfold formatCountdown.
  destruct (calc_fields Date_parse now T targetDate
              (Some (field timezone (Some o))) HT)
    as (h' & m & s & -> & Hh & Hm & Hs & Hsum).
  assert (h' = h) by lia. assert (m = 0) by lia. assert (s = 0) by lia.
  subst h' m s.
  assert (Hexp : (wholeSeconds now T <=? 0) = false)
    by (apply Z.leb_gt; lia).
  cbn [isExpired]. rewrite Hexp.
  assert (E1 : (h =? 1) = false) by (apply Z.eqb_neq; lia).
  assert (E0 : (h =? 0) = false) by (apply Z.eqb_neq; lia).
  assert (G : (0 <? h) = true) by (apply Z.ltb_lt; lia).
  set (r := {| hours := Num h; minutes := Num 0; seconds := Num 0;
               totalSeconds := Num (wholeSeconds now T);
               isExpired := false |}).
  assert (HP : forall sz, hoursPart sz None (Some ks) r
                          = [before ++ JS.toString (Num h) ++ after]).
  { intros sz. unfold hoursPart, unitPart.
    cbn [hours r JS.gt JS.eq slot]. rewrite G, E1, Hkey. cbn [orb].
    cbn [JS.or_default]. rewrite Placeholder.truthy_append.
    now rewrite (Placeholder.replace_first "{" "{count}}" _ before after
                   Hfree). }
  assert (MP : forall sz, minutesPart sz None (Some ks) r = []).
  { intros sz. unfold minutesPart, unitPart.
    cbn [hours minutes r JS.gt JS.eq]. rewrite E0.
    now destruct sz. }
  assert (SP : forall th sz, secondsPart th sz None (Some ks) r = []).
  { intros th sz. unfold secondsPart.
    cbn [hours r JS.eq]. now rewrite E0. }
  unfold countdownParts. cbn [field]. rewrite Ht, Hks, HP, MP, SP.
  reflexivity.
Qed.

End PluralKey.

Lemma formatCountdown_plural_key_witness :
  let ks :=
    Keys.mk None None (Some "about {{count}} hrs ({{count}})") None None
      None None in
  let o := mkFormatOptions None None None None None (Some ks) None None in
  getTime Iso.parse (DateString "2024-12-31T23:59:59Z") = Num 1735689599000
  /\ 2 <= 3
  /\ 3 * 3600000 <= 1735689599000 - 1735678798500 < 3 * 3600000 + 1000
  /\ formatCountdown Iso.parse 1735678798500
       (DateString "2024-12-31T23:59:59Z") (Some o)
     = "about 3 hrs ({{count}})".
Proof.
  intros ks o.
  assert (H : getTime Iso.parse (DateString "2024-12-31T23:59:59Z")
              = Num 1735689599000) by reflexivity.
  assert (L2 : 2 <= 3) by lia.
  assert (L : 3 * 3600000 <= 1735689599000 - 1735678798500
              < 3 * 3600000 + 1000) by lia.
  split; [exact H | ]. split; [exact L2 | ]. split; [exact L | ].
  exact (formatCountdown_plural_key Iso.parse 1735678798500 1735689599000 3
           (DateString "2024-12-31T23:59:59Z") o ks
           "about " " hrs ({{count}})" H L2 L eq_refl eq_refl eq_refl
           eq_refl).
Defined.

(** ** The compact rendering loses nothing *)

Module ReadFacts.
Import Re CompactShape.

Lemma decimal_leading_zero (s : string) :
  Read.decimal (String "0" s) = Read.decimal s.
Proof.
  unfold Read.decimal. simpl.
  destruct (NilEmpty.uint_of_string s); reflexivity.
Qed.

Lemma decimal_toString (z : Z) :
  0 <= z -> Read.decimal (JS.toString (Num z)) = Some z.
Proof.
  intros Hz. unfold Read.decimal, JS.toString.
  pose proof (DecimalZ.of_to z) as Hback.
  destruct z as [ | p | p]; [reflexivity | | lia].
  cbn [Z.to_int NilZero.string_of_int] in *.
  destruct (Pos.to_uint p) eqn:E;
    try (cbn [NilZero.string_of_uint]; rewrite NilEmpty.usu;
         cbn [option_map]; f_equal; exact Hback).
  exfalso. now apply (DecimalPos.Unsigned.to_uint_nonnil p).
Qed.

Lemma decimal_pad2 (z : Z) : 0 <= z -> Read.decimal (pad2 (Num z)) = Some z.
Proof.
  intros Hz. pose proof (decimal_toString z Hz) as H.
  unfold pad2. destruct (JS.toString (Num z)) as [ | a [ | b rest]].
  - rewrite <- H. reflexivity.
  - change (JS.padStart 2 "0" (String a "")) with (String "0" (String a "")).
    now rewrite decimal_leading_zero.
  - exact H.
Qed.

Lemma split_no_colon (s : string) :
  allDigits s -> Read.split ":" s = [s].
Proof.
  unfold allDigits. induction s as [ | c s IH]; simpl; intros H.
  - reflexivity.
  - inversion H as [ | ? ? Hc Hs]; subst.
    destruct (Ascii.eqb_spec c ":") as [-> | _]; [discriminate | ].
    now rewrite IH.
Qed.

Lemma split_field (a rest : string) :
  allDigits a ->
  Read.split ":" (a ++ String ":" rest) = a :: Read.split ":" rest.
Proof.
  unfold allDigits. induction a as [ | c a IH]; simpl; intros H.
  - reflexivity.
  - inversion H as [ | ? ? Hc Hs]; subst.
    destruct (Ascii.eqb_spec c ":") as [-> | _]; [discriminate | ].
    now rewrite (IH Hs).
Qed.

(** Two or three padded fields read back as the numbers they render. *)
Lemma fields_pad2 (x y : Z) :
  0 <= x -> 0 <= y ->
  Read.fields (pad2 (Num x) ++ ":" ++ pad2 (Num y)) = Some [x; y].
Proof.
  intros Hx Hy. unfold Read.fields.
  change (":" ++ pad2 (Num y)) with (String ":" (pad2 (Num y))).
  rewrite split_field by now apply pad2_digits.
  rewrite split_no_colon by now apply pad2_digits.
  cbn [List.map Read.all]. now rewrite !decimal_pad2.
Qed.

Lemma fields_pad3 (x y z : Z) :
  0 <= x -> 0 <= y -> 0 <= z ->
  Read.fields (pad2 (Num x) ++ ":" ++ pad2 (Num y) ++ ":" ++ pad2 (Num z))
  = Some [x; y; z].
Proof.
  intros Hx Hy Hz. unfold Read.fields.
  change (":" ++ pad2 (Num y) ++ ":" ++ pad2 (Num z))
    with (String ":" (pad2 (Num y) ++ String ":" (pad2 (Num z)))).
  rewrite !split_field by now apply pad2_digits.
  rewrite split_no_colon by now apply pad2_digits.
  cbn [List.map Read.all]. now rewrite !decimal_pad2.
Qed.

End ReadFacts.

Section CompactReadsBack.

Variable Date_parse : string -> number.

(** While seconds are shown, the compact rendering of a target instant
    that is not expired reads back as the fields of the time remaining. *)
Lemma compact_fields_read (now T : Z) (targetDate : TargetDate)
  (options : option FormatOptions) :
  getTime Date_parse targetDate = Num T -> 1000 <= T - now ->
  default (field showSeconds options) true = true ->
  exists h m s,
    wholeSeconds now T = h * 3600 + m * 60 + s
    /\ 0 <= h /\ 0 <= m <= 59 /\ 0 <= s <= 59
    /\ Read.fields (formatCountdownCompact Date_parse now targetDate options)
       = Some (if default (field showHours options) true
               then [h; m; s] else [h * 60 + m; s]).
Proof.
  intros HT Hlive Hss. unfold formatCountdownCompact.
  destruct (calc_fields Date_parse now T targetDate None HT)
    as (h & m & s & -> & Hh & Hm & Hs & Hsum).
  pose proof (wholeSeconds_live now T Hlive) as Hts.
  assert (Hexp : (wholeSeconds now T <=? 0) = false)
    by (apply Z.leb_gt; lia).
  cbn [isExpired]. rewrite Hexp, Hss.
  exists h, m, s. repeat split; try lia.
  unfold compactFields. cbn [hours minutes seconds JS.mul JS.add].
  destruct (default (field showHours options) true).
  - apply ReadFacts.fields_pad3; lia.
  - apply ReadFacts.fields_pad2; lia.
Qed.

(** Read back at its colons, the compact rendering of a target instant
    that is not expired gives hours, minutes and seconds that add up to
    [totalSeconds]; with the hours folded in, minutes and seconds that
    do. *)
Theorem formatCountdownCompact_reads_back (now T : Z)
  (targetDate : TargetDate) (options : option FormatOptions) :
  getTime Date_parse targetDate = Num T -> 1000 <= T - now ->
  default (field showSeconds options) true = true ->
  let r := calculateTimeRemaining Date_parse now targetDate None in
  let out := formatCountdownCompact Date_parse now targetDate options in
  exists ts,
    totalSeconds r = Num ts
    /\ if default (field showHours options) true
       then exists h m s,
              Read.fields out = Some [h; m; s]
              /\ hours r = Num h /\ minutes r = Num m /\ seconds r = Num s
              /\ h * 3600 + m * 60 + s = ts
       else exists m s,
              Read.fields out = Some [m; s]
              /\ seconds r = Num s /\ m * 60 + s = ts.
Proof.
  intros HT Hlive Hss r out. subst r out.
  unfold formatCountdownCompact.
  destruct (calc_fields Date_parse now T targetDate None HT)
    as (h & m & s & -> & Hh & Hm & Hs & Hsum).
  pose proof (wholeSeconds_live now T Hlive) as Hts.
  assert (Hexp : (wholeSeconds now T <=? 0) = false)
    by (apply Z.leb_gt; lia).
  cbn [isExpired totalSeconds hours minutes seconds]. rewrite Hexp, Hss.
  exists (wholeSeconds now T). split; [reflexivity | ].
  unfold compactFields. cbn [hours minutes seconds JS.mul JS.add].
  destruct (default (field showHours options) true).
  - exists h, m, s. rewrite ReadFacts.fields_pad3 by lia.
    repeat split; lia.
  - exists (h * 60 + m), s. rewrite ReadFacts.fields_pad2 by lia.
    repeat split; lia.
Qed.

(** While seconds are shown, two target instants that are not expired and
    get the same compact rendering under the same options have the same
    [totalSeconds]. *)
Theorem formatCountdownCompact_determines_seconds (now now' T T' : Z)
  (targetDate targetDate' : TargetDate) (options : option FormatOptions) :
  getTime Date_parse targetDate = Num T -> 1000 <= T - now ->
  getTime Date_parse targetDate' = Num T' -> 1000 <= T' - now' ->
  default (field showSeconds options) true = true ->
  formatCountdownCompact Date_parse now targetDate options
  = formatCountdownCompact Date_parse now' targetDate' options ->
  totalSeconds (calculateTimeRemaining Date_parse now targetDate None)
  = totalSeconds (calculateTimeRemaining Date_parse now' targetDate' None).
Proof.
  intros HT Hlive HT' Hlive' Hss Hsame.
  destruct (compact_fields_read now T targetDate options HT Hlive Hss)
    as (h & m & s & Hsum & Hh & Hm & Hs & Hread).
  destruct (compact_fields_read now' T' targetDate' options HT' Hlive' Hss)
    as (h' & m' & s' & Hsum' & Hh' & Hm' & Hs' & Hread').
  rewrite (calc_instant Date_parse now T _ _ HT).
  rewrite (calc_instant Date_parse now' T' _ _ HT').
  cbn [totalSeconds]. f_equal.
  rewrite Hsame, Hread' in Hread.
  destruct (default (field showHours options) true);
    injection Hread as E1 E2; lia.
Qed.

End CompactReadsBack.

Lemma formatCountdownCompact_reads_back_witness :
  getTime Iso.parse (DateString "2024-12-31T23:59:59Z") = Num 1735689599000
  /\ 1000 <= 1735689599000 - 1735669799000
  /\ default (field showSeconds None) true = true
  /\ exists ts,
       totalSeconds (calculateTimeRemaining Iso.parse 1735669799000
                       (DateString "2024-12-31T23:59:59Z") None) = Num ts
       /\ exists h m s,
            Read.fields (formatCountdownCompact Iso.parse 1735669799000
                           (DateString "2024-12-31T23:59:59Z") None)
            = Some [h; m; s]
            /\ h * 3600 + m * 60 + s = ts.
Proof.
  assert (H : getTime Iso.parse (DateString "2024-12-31T23:59:59Z")
              = Num 1735689599000) by reflexivity.
  assert (L : 1000 <= 1735689599000 - 1735669799000) by lia.
  assert (S : default (field showSeconds None) true = true) by reflexivity.
  split; [exact H | ]. split; [exact L | ]. split; [exact S | ].
  destruct (formatCountdownCompact_reads_back Iso.parse 1735669799000
              1735689599000 (DateString "2024-12-31T23:59:59Z") None H L S)
    as (ts & Hts & h & m & s & Hread & _ & _ & _ & Hsum).
  exists ts. split; [exact Hts | ]. exists h, m, s. now split.
Defined.

Lemma formatCountdownCompact_determines_seconds_witness :
  getTime Iso.parse (DateString "2024-12-31T23:59:59Z") = Num 1735689599000
  /\ 1000 <= 1735689599000 - 1735669799000
  /\ getTime Iso.parse (DateObject (Num 1735689600900)) = Num 1735689600900
  /\ 1000 <= 1735689600900 - 1735669800000
  /\ formatCountdownCompact Iso.parse 1735669799000
       (DateString "2024-12-31T23:59:59Z") None
     = formatCountdownCompact Iso.parse 1735669800000
         (DateObject (Num 1735689600900)) None
  /\ totalSeconds (calculateTimeRemaining Iso.parse 1735669799000
                     (DateString "2024-12-31T23:59:59Z") None)
     = totalSeconds (calculateTimeRemaining Iso.parse 1735669800000
                       (DateObject (Num 1735689600900)) None).
Proof.
  assert (H : getTime Iso.parse (DateString "2024-12-31T23:59:59Z")
              = Num 1735689599000) by reflexivity.
  assert (L : 1000 <= 1735689599000 - 1735669799000) by lia.
  assert (H' : getTime Iso.parse (DateObject (Num 1735689600900))
               = Num 1735689600900) by reflexivity.
  assert (L' : 1000 <= 1735689600900 - 1735669800000) by lia.
  assert (E : formatCountdownCompact Iso.parse 1735669799000
                (DateString "2024-12-31T23:59:59Z") None
              = formatCountdownCompact Iso.parse 1735669800000
                  (DateObject (Num 1735689600900)) None) by reflexivity.
  split; [exact H | ]. split; [exact L | ]. split; [exact H' | ].
  split; [exact L' | ]. split; [exact E | ].
  exact (formatCountdownCompact_determines_seconds Iso.parse
           1735669799000 1735669800000 1735689599000 1735689600900
           (DateString "2024-12-31T23:59:59Z")
           (DateObject (Num 1735689600900)) None H L H' L' eq_refl E).
Defined.

(** ** No rendering is empty *)

Module NonEmpty.

Lemma append_char_nonempty (a : string) (c : ascii) (b : string) :
  a ++ String c b <> "".
Proof. destruct a; discriminate. Qed.

Lemma append_nonempty (a b : string) : a <> "" -> a ++ b <> "".
Proof. destruct a; [congruence | discriminate]. Qed.

Lemma toString_nonempty (n : number) : JS.toString n <> "".
Proof.
  destruct n as [z | ]; [ | discriminate]. unfold JS.toString.
  destruct (Z.to_int z) as [d | d]; [ | discriminate].
  cbn [NilZero.string_of_int]. destruct d; discriminate.
Qed.

Lemma padStart_nonempty (s : string) : JS.padStart 2 "0" s <> "".
Proof. destruct s as [ | a [ | b rest]]; discriminate. Qed.

Lemma or_default_nonempty (k : option string) (d : string) :
  d <> "" -> JS.or_default k d <> "".
Proof.
  intros Hd. destruct k as [[ | c s] | ]; simpl; try assumption.
  discriminate.
Qed.

Lemma replace_nonempty (pat by_ s : string) :
  by_ <> "" -> s <> "" -> JS.replace pat by_ s <> "".
Proof.
  intros Hby Hs. destruct s as [ | c s]; [congruence | ].
  cbn [JS.replace]. destruct (String.prefix pat (String c s)).
  - now apply append_nonempty.
  - discriminate.
Qed.

Lemma join_nonempty (sep : string) (parts : list string) :
  parts <> [] -> Forall (fun p => p <> "") parts -> JS.join sep parts <> "".
Proof.
  intros Hne Hall. destruct parts as [ | p parts]; [congruence | ].
  inversion Hall; subst. unfold JS.join. cbn [String.concat].
  destruct parts; [assumption | now apply append_nonempty].
Qed.

(** Without a translation function a block pushes no empty text. *)
Lemma unitPart_nonempty (shown : bool) (count : number)
  (oneKey manyKey : option string) (oneText manyText : string) :
  oneText <> "" -> manyText <> "" ->
  Forall (fun p => p <> "")
    (unitPart shown count None oneKey manyKey oneText manyText).
Proof.
  intros H1 Hn. unfold unitPart.
  destruct shown; [ | constructor].
  destruct (JS.eq count (Num 1)).
  - repeat constructor. now apply or_default_nonempty.
  - destruct (JS.gt count (Num 0)); repeat constructor.
    apply replace_nonempty;
      [apply toString_nonempty | now apply or_default_nonempty].
Qed.

End NonEmpty.

Section NeverEmpty.

Variable Date_parse : string -> number.

Lemma formatCountdownShort_nonempty (now : Z) (targetDate : TargetDate)
  (options : option FormatOptions) :
  formatCountdownShort Date_parse now targetDate options <> "".
Proof.
  unfold formatCountdownShort. destruct (isExpired _); [discriminate | ].
  match goal with |- context [shortParts ?th ?r] =>
    set (parts := shortParts th r);
    assert (Hall : Forall (fun p => p <> "") parts)
  end.
  { unfold parts, shortParts.
    repeat (apply Forall_app; split);
      repeat match goal with
             | |- Forall _ (if ?b then _ else _) => destruct b
             end;
      repeat constructor; apply NonEmpty.append_char_nonempty. }
  destruct parts as [ | p l] eqn:E; [discriminate | ].
  cbn [List.length Nat.ltb Nat.leb].
  apply NonEmpty.join_nonempty; [discriminate | exact Hall].
Qed.

Lemma formatCountdownCompact_nonempty (now : Z) (targetDate : TargetDate)
  (options : option FormatOptions) :
  formatCountdownCompact Date_parse now targetDate options <> "".
Proof.
  unfold formatCountdownCompact, compactFields, pad2.
  destruct (isExpired _), (default (field showHours options) true),
    (default (field showSeconds options) true);
    try discriminate;
    try (apply NonEmpty.append_nonempty); apply NonEmpty.padStart_nonempty.
Qed.

Lemma formatCountdown_nonempty (now : Z) (targetDate : TargetDate)
  (options : option FormatOptions) :
  field t options = None ->
  formatCountdown Date_parse now targetDate options <> "".
Proof.
  intros Ht. unfold formatCountdown. rewrite Ht.
  assert (Hmsg : availableNowMessage None (field keys options) <> "").
  { unfold availableNowMessage. now apply NonEmpty.or_default_nonempty. }
  destruct (isExpired _); [exact Hmsg | ].
  match goal with |- context [countdownParts ?o ?r] =>
    set (parts := countdownParts o r);
    assert (Hall : Forall (fun p => p <> "") parts)
  end.
  { unfold parts, countdownParts, hoursPart, minutesPart, secondsPart.
    rewrite Ht.
    repeat (apply Forall_app; split);
      try match goal with
          | |- Forall _ (if ?b then _ else _) => destruct b; [ | constructor]
          end;
      apply NonEmpty.unitPart_nonempty; discriminate. }
  destruct parts as [ | p l] eqn:E; [exact Hmsg | ].
  cbn [List.length Nat.eqb].
  apply NonEmpty.join_nonempty; [discriminate | exact Hall].
Qed.

(** No formatter returns the empty text: the short and the compact one
    for no target, clock reading or options at all, the verbose one as
    long as no translation function is given. *)
Theorem formatters_never_empty (now : Z) (targetDate : TargetDate)
  (options : option FormatOptions) :
  formatCountdownShort Date_parse now targetDate options <> ""
  /\ formatCountdownCompact Date_parse now targetDate options <> ""
  /\ (field t options = None ->
      formatCountdown Date_parse now targetDate options <> "").
Proof.
  split; [apply formatCountdownShort_nonempty | ].
  split; [apply formatCountdownCompact_nonempty | ].
  apply formatCountdown_nonempty.
Qed.

End NeverEmpty.

Lemma formatters_never_empty_witness :
  field t (Some noOptions) = None
  /\ formatCountdown Iso.parse 1735689600000 (DateString "soon")
       (Some noOptions) <> "".
Proof.
  assert (H : field t (Some noOptions) = None) by reflexivity.
  split; [exact H | ].
  exact (proj2 (proj2 (formatters_never_empty Iso.parse 1735689600000
                         (DateString "soon") (Some noOptions))) H).
Defined.

(** ** The hook between renders *)

Section HookBehaviour.

Variable Date_parse : string -> number.
Variable World : Type.


(** The texts of a render are empty when there is no current target and
    only then: with a target, [short] and [compact] are never empty, nor is
    [formatted] unless a translation function makes it so. *)
Theorem render_empty_without_target
  (options : option (UseCountdownOptions World))
  (nowF nowS nowC : Z) (st : HookState) :
  let ret := render Date_parse World options nowF nowS nowC st in
  (truthyCurrent (currentTarget st) = false ->
   Return.formatted ret = "" /\ Return.short ret = ""
   /\ Return.compact ret = "")
  /\ (truthyCurrent (currentTarget st) = true ->
      Return.short ret <> "" /\ Return.compact ret <> ""
      /\ (t (formatOptions World (default options (noHookOptions World)))
          = None -> Return.formatted ret <> "")).
Proof.
  intros ret. subst ret. unfold render.
  cbn [Return.formatted Return.short Return.compact].
  destruct (currentTarget st) as [d | ]; cbn [truthyCurrent].
  - destruct (truthyTarget d).
    + split; [discriminate | ]. intros _.
      split; [apply formatCountdownShort_nonempty | ].
      split; [apply formatCountdownCompact_nonempty | ].
      intros Ht. now apply formatCountdown_nonempty.
    + split; [now repeat split | discriminate].
  - split; [now repeat split | discriminate].
Qed.


(** The empty string is no target: [useCountdown("")] returns what it
    returns for [null], the zero time remaining and three empty texts, and
    mounting and timer firings leave that state alone. *)
Theorem useCountdown_empty_string (now nowF nowS nowC now' : Z)
  (options : option (UseCountdownOptions World)) (nows : list Z) (w : World) :
  useCountdown Date_parse World now nowF nowS nowC
    (Target (DateString "")) options
  = useCountdown Date_parse World now nowF nowS nowC Null options
  /\ Return.timeRemaining
       (useCountdown Date_parse World now nowF nowS nowC
          (Target (DateString "")) options)
     = {| hours := Num 0; minutes := Num 0; seconds := Num 0;
          totalSeconds := Num 0; isExpired := true |}
  /\ Return.formatted
       (useCountdown Date_parse World now nowF nowS nowC
          (Target (DateString "")) options) = ""
  /\ (let st := initialState Date_parse World now
                  (Target (DateString "")) options in
      ticks Date_parse World options nows
        (mount Date_parse World options now' (Target (DateString ""))
           (st, w))
      = (st, w)).
Proof.
  repeat split.
  unfold mount, tick, updateCountdown, initialState, setTimeRemaining.
  cbn [orNull truthyTarget JS.truthy currentTarget isActive timeRemaining
       truthyCurrent].
  rewrite andb_false_r. now apply ticks_without_target.
Qed.

(** Mounting on a target instant that is already reached calls [onExpire]
    from both effects when the countdown starts by itself, and once, from
    the target effect, when [autoStart] is false. *)
Theorem mount_on_reached_target
  (options : option (UseCountdownOptions World)) (now now' T : Z)
  (d : TargetDate) (callback : World -> World) (w : World) :
  truthyTarget d = true -> getTime Date_parse d = Num T ->
  T - now' < 1000 ->
  onExpire World (default options (noHookOptions World)) = Some callback ->
  snd (mount Date_parse World options now' (Target d)
         (initialState Date_parse World now (Target d) options, w))
  = if default (autoStart World (default options (noHookOptions World)))
         true
    then callback (callback w) else callback w.
Proof.
  intros Ht HT Hreached Hcb.
  assert (Hexp : forall tz,
             isExpired (calculateTimeRemaining Date_parse now' d tz) = true).
  { intros tz. rewrite (calc_instant Date_parse now' T d tz HT).
    cbn [isExpired]. apply Z.leb_le.
    now rewrite (proj2 (wholeSeconds_zero_iff now' T) Hreached). }
  assert (Hup : forall st v, currentTarget st = Some d ->
             snd (updateCountdown Date_parse World options now' st v)
             = callback v).
  { intros st v Hc. unfold updateCountdown. rewrite Hc, Ht, Hcb, Hexp.
    reflexivity. }
  unfold mount, tick, initialState. cbn [orNull]. rewrite Ht.
  cbn [isActive currentTarget truthyCurrent]. rewrite Ht.
  destruct (default (autoStart World (default options (noHookOptions World)))
              true); cbn [andb].
  - match goal with |- context [updateCountdown _ _ _ _ ?s ?v] =>
      pose proof (Hup s v eq_refl) as H1;
      pose proof (updateCountdown_keeps Date_parse World options now' s v)
        as [Kc _];
      destruct (updateCountdown Date_parse World options now' s v)
        as [st1 w1]
    end.
    cbn [fst snd] in *. subst w1.
    pose proof (Hup st1 (callback w) Kc) as H2.
    destruct (updateCountdown Date_parse World options now' st1
                (callback w)) as [st2 w2].
    cbn [snd] in *. now subst w2.
  - match goal with |- context [updateCountdown _ _ _ _ ?s ?v] =>
      pose proof (Hup s v eq_refl) as H1;
      destruct (updateCountdown Date_parse World options now' s v)
        as [st1 w1]
    end.
    cbn [snd] in *. now subst w1.
Qed.

(** [reset] recomputes from the target it replaces.  On a countdown
    whose target instant is reached it calls [onExpire] again and stores an
    expired time remaining beside the new target, whatever that target is;
    the update that follows, from the render that sees the new target,
    stores the time remaining to the new target. *)
Theorem reset_updates_from_previous_target
  (options : option (UseCountdownOptions World)) (now now' T : Z)
  (d newTargetDate : TargetDate) (callback : World -> World)
  (st : HookState) (w : World) :
  currentTarget st = Some d -> truthyTarget d = true ->
  getTime Date_parse d = Num T -> T - now < 1000 ->
  onExpire World (default options (noHookOptions World)) = Some callback ->
  truthyTarget newTargetDate = true ->
  let after := reset Date_parse World options now newTargetDate st w in
  currentTarget (fst after) = Some newTargetDate
  /\ isActive (fst after) = true
  /\ isExpired (timeRemaining (fst after)) = true
  /\ timeRemaining (fst after)
     = calculateTimeRemaining Date_parse now d
         (Some (timezone
                  (formatOptions World
                     (default options (noHookOptions World)))))
  /\ snd after = callback w
  /\ timeRemaining (fst (tick Date_parse World options now' after))
     = calculateTimeRemaining Date_parse now' newTargetDate
         (Some (timezone
                  (formatOptions World
                     (default options (noHookOptions World))))).
Proof.
  intros Hc Ht HT Hreached Hcb Hnew after.
  assert (Hexp : forall tz,
             isExpired (calculateTimeRemaining Date_parse now d tz) = true).
  { intros tz. rewrite (calc_instant Date_parse now T d tz HT).
    cbn [isExpired]. apply Z.leb_le.
    now rewrite (proj2 (wholeSeconds_zero_iff now T) Hreached). }
  assert (Hafter : after
           = ({| currentTarget := Some newTargetDate;
                 isActive := true;
                 timeRemaining :=
                   calculateTimeRemaining Date_parse now d
                     (Some (timezone
                              (formatOptions World
                                 (default options (noHookOptions World)))))
              |}, callback w)).
  { subst after. unfold reset, updateCountdown.
    rewrite Hc, Ht, Hcb, Hexp. reflexivity. }
  rewrite Hafter. cbn [fst snd currentTarget isActive timeRemaining].
  repeat split; try apply Hexp.
  unfold tick, updateCountdown.
  cbn [currentTarget isActive truthyCurrent andb]. rewrite Hnew.
  destruct (onExpire World (default options (noHookOptions World)));
    [ | reflexivity].
  destruct (isExpired _); reflexivity.
Qed.

(** On a target that is no date the countdown never expires: whatever
    the clock readings, the timer never calls [onExpire]. *)
Theorem invalid_target_never_expires
  (options : option (UseCountdownOptions World)) (d : TargetDate)
  (nows : list Z) (st : HookState) (w : World) :
  currentTarget st = Some d -> getTime Date_parse d = NaN ->
  snd (ticks Date_parse World options nows (st, w)) = w
  /\ currentTarget (fst (ticks Date_parse World options nows (st, w)))
     = Some d
  /\ (nows <> [] -> isActive st = true -> truthyTarget d = true ->
      isExpired
        (timeRemaining (fst (ticks Date_parse World options nows (st, w))))
      = false).
Proof.
  intros Hc HT.
  assert (Hstep : forall now s v, currentTarget s = Some d ->
             snd (tick Date_parse World options now (s, v)) = v
             /\ currentTarget (fst (tick Date_parse World options now (s, v)))
                = Some d
             /\ isActive (fst (tick Date_parse World options now (s, v)))
                = isActive s
             /\ (isActive s = true -> truthyTarget d = true ->
                 isExpired (timeRemaining
                              (fst (tick Date_parse World options now
                                      (s, v)))) = false)).
  { intros now s v Hs. unfold tick, updateCountdown. rewrite Hs.
    cbn [truthyCurrent].
    destruct (isActive s) eqn:Ha, (truthyTarget d) eqn:Htd; cbn [andb];
      try (repeat split; solve [assumption | discriminate]).
    rewrite (calc_invalid Date_parse now d _ HT). cbn [isExpired].
    destruct (onExpire World (default options (noHookOptions World)));
      repeat split; assumption. }
  revert st w Hc.
  induction nows as [ | now later IH]; intros s v Hs.
  - repeat split; [assumption | congruence].
  - cbn [ticks].
    destruct (Hstep now s v Hs) as (Hw & Hc' & Ha' & He').
    destruct (tick Date_parse World options now (s, v)) as [s1 v1].
    cbn [fst snd] in *. subst v1.
    destruct (IH s1 v Hc') as (IHw & IHc & IHe).
    repeat split; try assumption.
    intros _ Ha Htd. destruct later as [ | now2 later'].
    + cbn [ticks fst]. now apply He'.
    + apply IHe; [discriminate | congruence | assumption].
Qed.

End HookBehaviour.

Lemma render_empty_without_target_witness :
  let idle := initialState Iso.parse nat 1735689590000 Null None in
  let running :=
    initialState Iso.parse nat 1735689590000
      (Target (DateString "2024-12-31T23:59:59Z")) None in
  truthyCurrent (currentTarget idle) = false
  /\ truthyCurrent (currentTarget running) = true
  /\ Return.short (render Iso.parse nat None 1735689590000 1735689590000
                     1735689590000 idle) = ""
  /\ Return.short (render Iso.parse nat None 1735689590000 1735689590000
                     1735689590000 running) <> "".
Proof.
  intros idle running.
  assert (Hi : truthyCurrent (currentTarget idle) = false) by reflexivity.
  assert (Hr : truthyCurrent (currentTarget running) = true) by reflexivity.
  split; [exact Hi | ]. split; [exact Hr | ]. split.
  - exact (proj1 (proj2 (proj1 (render_empty_without_target Iso.parse nat
                                  None 1735689590000 1735689590000
                                  1735689590000 idle) Hi))).
  - exact (proj1 (proj2 (render_empty_without_target Iso.parse nat
                            None 1735689590000 1735689590000
                            1735689590000 running) Hr)).
Defined.

Lemma mount_on_reached_target_witness :
  let counting :=
    Some (mkUseCountdownOptions nat None None (Some S) noOptions) in
  let manual :=
    Some (mkUseCountdownOptions nat None (Some false) (Some S) noOptions) in
  let d := DateString "2024-12-31T23:59:59Z" in
  truthyTarget d = true
  /\ getTime Iso.parse d = Num 1735689599000
  /\ 1735689599000 - 1735689600000 < 1000
  /\ snd (mount Iso.parse nat counting 1735689600000 (Target d)
            (initialState Iso.parse nat 1735689600000 (Target d) counting,
             O)) = 2%nat
  /\ snd (mount Iso.parse nat manual 1735689600000 (Target d)
            (initialState Iso.parse nat 1735689600000 (Target d) manual,
             O)) = 1%nat.
Proof.
  intros counting manual d.
  assert (Ht : truthyTarget d = true) by reflexivity.
  assert (HT : getTime Iso.parse d = Num 1735689599000) by reflexivity.
  assert (L : 1735689599000 - 1735689600000 < 1000) by lia.
  split; [exact Ht | ]. split; [exact HT | ]. split; [exact L | ]. split.
  - exact (mount_on_reached_target Iso.parse nat counting 1735689600000
             1735689600000 1735689599000 d S O Ht HT L eq_refl).
  - exact (mount_on_reached_target Iso.parse nat manual 1735689600000
             1735689600000 1735689599000 d S O Ht HT L eq_refl).
Defined.

Lemma reset_updates_from_previous_target_witness :
  let counting :=
    Some (mkUseCountdownOptions nat None None (Some S) noOptions) in
  let d := DateString "2024-12-31T23:59:59Z" in
  let next := DateString "2025-01-01T00:10:00Z" in
  let st := initialState Iso.parse nat 1735689600000 (Target d) counting in
  currentTarget st = Some d
  /\ truthyTarget d = true
  /\ getTime Iso.parse d = Num 1735689599000
  /\ 1735689599000 - 1735689600000 < 1000
  /\ truthyTarget next = true
  /\ isExpired
       (timeRemaining
          (fst (reset Iso.parse nat counting 1735689600000 next st O)))
     = true
  /\ snd (reset Iso.parse nat counting 1735689600000 next st O) = 1%nat.
Proof.
  intros counting d next st.
  assert (Hc : currentTarget st = Some d) by reflexivity.
  assert (Ht : truthyTarget d = true) by reflexivity.
  assert (HT : getTime Iso.parse d = Num 1735689599000) by reflexivity.
  assert (L : 1735689599000 - 1735689600000 < 1000) by lia.
  assert (Hn : truthyTarget next = true) by reflexivity.
  destruct (reset_updates_from_previous_target Iso.parse nat counting
              1735689600000 1735689601000 1735689599000 d next S st O
              Hc Ht HT L eq_refl Hn) as (_ & _ & He & _ & Hw & _).
  repeat (split; [assumption | ]). exact Hw.
Defined.

Lemma invalid_target_never_expires_witness :
  let counting :=
    Some (mkUseCountdownOptions nat None None (Some S) noOptions) in
  let d := DateString "not a date" in
  let st := initialState Iso.parse nat 1735689600000 (Target d) counting in
  currentTarget st = Some d
  /\ getTime Iso.parse d = NaN
  /\ snd (ticks Iso.parse nat counting
            [1735689601000; 1735689602000; 4102444800000] (st, O)) = O.
Proof.
  intros counting d st.
  assert (Hc : currentTarget st = Some d) by reflexivity.
  assert (HT : getTime Iso.parse d = NaN) by reflexivity.
  split; [exact Hc | ]. split; [exact HT | ].
  exact (proj1 (invalid_target_never_expires Iso.parse nat counting d
                  [1735689601000; 1735689602000; 4102444800000] st O
                  Hc HT)).
Defined.

(** ** Translation, and the units the two wordy renderings show *)

Section Wording.

Variable Date_parse : string -> number.

(** With a translation function every text comes from it: at a whole
    number of hours the rendering is what [t] returns for the singular key
    alone when one hour is left, and for the plural key and the count
    otherwise, the key untouched, its placeholder left to [t]. *)
Theorem formatCountdown_translated (now T h : Z) (targetDate : TargetDate)
  (o : FormatOptions) (tr : Translate) :
  getTime Date_parse targetDate = Num T ->
  1 <= h -> h * 3600000 <= T - now < h * 3600000 + 1000 ->
  t o = Some tr ->
  formatCountdown Date_parse now targetDate (Some o)
  = if h =? 1
    then tr (JS.or_default (slot Keys.oneHour (keys o)) "1 hour") None
    else tr (JS.or_default (slot Keys.hours (keys o)) "{{count}} hours")
           (Some (Num h)).
Proof.
  intros HT Hh1 [Hlo Hhi] Ht.
  assert (Hts : wholeSeconds now T = h * 3600).
  { unfold wholeSeconds. rewrite Z.max_r by lia.
    symmetry. apply (Z.div_unique (T - now) 1000 (h * 3600)
                       (T - now - h * 3600000)); lia. }
  unfold formatCountdown.
  destruct (calc_fields Date_parse now T targetDate
              (Some (field timezone (Some o))) HT)
    as (h' & m & s & -> & Hh & Hm & Hs & Hsum).
  assert (h' = h) by lia. assert (m = 0) by lia. assert (s = 0) by lia.
  subst h' m s.
  assert (Hexp : (wholeSeconds now T <=? 0) = false)
    by (apply Z.leb_gt; lia).
  cbn [isExpired]. rewrite Hexp.
  assert (E0 : (h =? 0) = false) by (apply Z.eqb_neq; lia).
  assert (G : (0 <? h) = true) by (apply Z.ltb_lt; lia).
  set (r := {| hours := Num h; minutes := Num 0; seconds := Num 0;
               totalSeconds := Num (wholeSeconds now T);
               isExpired := false |}).
  assert (MP : forall sz, minutesPart sz (Some tr) (keys o) r = []).
  { intros sz. unfold minutesPart, unitPart.
    cbn [hours minutes r JS.gt JS.eq]. rewrite E0.
    now destruct sz. }
  assert (SP : forall th sz, secondsPart th sz (Some tr) (keys o) r = []).
  { intros th sz. unfold secondsPart.
    cbn [hours r JS.eq]. now rewrite E0. }
  unfold countdownParts. cbn [field]. rewrite Ht, MP, SP.
  unfold hoursPart, unitPart. cbn [hours r JS.gt JS.eq]. rewrite G.
  cbn [orb]. destruct (h =? 1); reflexivity.
Qed.

Lemma unitPart_length (b : bool) (count : number) (t : option Translate)
  (oneKey manyKey : option string) (oneText manyText : string) :
  List.length
    (unitPart (JS.gt count (Num 0) || b) count t oneKey manyKey
       oneText manyText)
  = if JS.gt count (Num 0) then 1%nat else 0%nat.
Proof.
  rewrite unitPart_outer. unfold unitPart.
  destruct (JS.gt count (Num 0)); [ | reflexivity].
  destruct (JS.eq count (Num 1)); reflexivity.
Qed.

(** The verbose and the short rendering always show the same units: for
    every time remaining and all options their lists of parts have the
    same length, each unit being in both or in neither. *)
Theorem verbose_and_short_show_the_same_units
  (options : option FormatOptions) (r : TimeRemaining) :
  let threshold := default (field showSecondsThreshold options) (Num 5) in
  let showZeros := default (field showZeros options) false in
  let t := field t options in
  let keys := field keys options in
  List.length (countdownParts options r)
  = List.length (shortParts threshold r)
  /\ (hoursPart showZeros t keys r <> []
      <-> JS.gt (hours r) (Num 0) = true)
  /\ (minutesPart showZeros t keys r <> []
      <-> JS.gt (minutes r) (Num 0) = true)
  /\ (secondsPart threshold showZeros t keys r <> []
      <-> JS.eq (hours r) (Num 0) = true
          /\ JS.lt (minutes r) threshold = true
          /\ JS.gt (seconds r) (Num 0) = true).
Proof.
  intros threshold showZeros t keys.
  assert (Hlen : forall b count k1 k2 s1 s2,
             unitPart (JS.gt count (Num 0) || b) count t k1 k2 s1 s2 <> []
             <-> JS.gt count (Num 0) = true).
  { intros b count k1 k2 s1 s2.
    pose proof (unitPart_length b count t k1 k2 s1 s2) as L.
    destruct (JS.gt count (Num 0));
      destruct (unitPart _ count t k1 k2 s1 s2);
      simpl in L; split; congruence. }
  split; [ | split; [apply Hlen | split; [apply Hlen | ]]].
  - unfold countdownParts, shortParts, hoursPart, minutesPart, secondsPart.
    fold threshold showZeros t keys.
    rewrite !length_app, !unitPart_length.
    destruct (JS.gt (hours r) (Num 0)), (JS.gt (minutes r) (Num 0)),
      (JS.eq (hours r) (Num 0) && JS.lt (minutes r) threshold);
      rewrite ?unitPart_length;
      destruct (JS.gt (seconds r) (Num 0)); reflexivity.
  - unfold secondsPart.
    destruct (JS.eq (hours r) (Num 0)), (JS.lt (minutes r) threshold);
      cbn [andb]; rewrite ?Hlen; intuition congruence.
Qed.

End Wording.

Lemma formatCountdown_translated_witness :
  let shout : Translate :=
    fun key params =>
      match params with
      | Some count => key ++ "!" ++ JS.toString count
      | None => key ++ "!"
      end in
  let o :=
    mkFormatOptions None None None None (Some shout) None None None in
  getTime Iso.parse (DateString "2024-12-31T23:59:59Z") = Num 1735689599000
  /\ 1 <= 3
  /\ 3 * 3600000 <= 1735689599000 - 1735678798500 < 3 * 3600000 + 1000
  /\ formatCountdown Iso.parse 1735678798500
       (DateString "2024-12-31T23:59:59Z") (Some o)
     = "{{count}} hours!3".
Proof.
  intros shout o.
  assert (H : getTime Iso.parse (DateString "2024-12-31T23:59:59Z")
              = Num 1735689599000) by reflexivity.
  assert (L1 : 1 <= 3) by lia.
  assert (L : 3 * 3600000 <= 1735689599000 - 1735678798500
              < 3 * 3600000 + 1000) by lia.
  split; [exact H | ]. split; [exact L1 | ]. split; [exact L | ].
  exact (formatCountdown_translated Iso.parse 1735678798500 1735689599000 3
           (DateString "2024-12-31T23:59:59Z") o shout H L1 L eq_refl).
Defined.
